(** * GraphQL schema compiler of the siapi GraphQL plugin

    A shallow embedding of the type mapper ([convertType]), the input and
    payload generators, the polymorphic union builder, the resolver
    annotation and the schema merger, together with the properties the
    specification states about them.

    JavaScript values are embedded as a small tree type: the configuration
    and model objects the plugin reads are JSON-like trees whose leaves may
    also be functions. *)

From stdpp Require Import base strings list gmap pretty.
From Stdlib Require Import ZArith Ascii.

Local Open Scope Z_scope.

(** ** JavaScript values *)

(** [VNum] holds the integers (non-integral numbers and NaN are outside the
    model, and so are arrays); [VFun] is a function, identified by its
    source text; [VObj] is a plain object, its own properties listed in
    enumeration order. An object of JavaScript has no key twice: the lemmas
    that depend on it assume [NoDup (keys o)]. Only own properties are
    modelled: the keys an object inherits from [Object.prototype]
    ([constructor], [__proto__], [toString], ...) are outside the model. *)
#[local] Unset Elimination Schemes.
Inductive value : Type :=
| VUndef
| VNull
| VBool (b : bool)
| VNum (n : Z)
| VStr (s : string)
| VFun (src : string)
| VObj (props : list (string * value)).
#[local] Set Elimination Schemes.

(** The own properties of a plain object. *)
Definition object : Type := list (string * value).

(** [hasOwn o k]: [k in o] for a plain object. *)
Fixpoint hasOwn (o : object) (k : string) : bool :=
  match o with
  | [] => false
  | (k', _) :: o' => if bool_decide (k' = k) then true else hasOwn o' k
  end.

(** [prop o k] is the property read [o[k]] (or [o.k]) on a plain object:
    [undefined] when the property is missing. *)
Fixpoint prop (o : object) (k : string) : value :=
  match o with
  | [] => VUndef
  | (k', v) :: o' => if bool_decide (k' = k) then v else prop o' k
  end.

(** [setProp o k v] is the assignment [o[k] = v]: an existing property keeps
    its place, a new one is added last. *)
Fixpoint setProp (o : object) (k : string) (v : value) : object :=
  match o with
  | [] => [(k, v)]
  | (k', v') :: o' =>
      if bool_decide (k' = k) then (k', v) :: o' else (k', v') :: setProp o' k v
  end.

(** [Object.keys]. *)
Definition keys (o : object) : list string := o.*1.

(** The property read [v[k]] on a value that is not known to be a plain
    object (only used where the source has checked that [v] is neither
    [null] nor [undefined]). *)
Definition propOf (v : value) (k : string) : value :=
  match v with
  | VObj o => prop o k
  | _ => VUndef
  end.

(** ToBoolean. *)
Definition truthy (v : value) : bool :=
  match v with
  | VUndef | VNull => false
  | VBool b => b
  | VNum n => negb (n =? 0)
  | VStr s => negb (bool_decide (s = ""))
  | VFun _ | VObj _ => true
  end.

(** [a || b]. *)
Definition or_ (a b : value) : value := if truthy a then a else b.

(** ToString, as applied by template literals, by [+] with a string and by
    property keys. *)
Definition toString (v : value) : string :=
  match v with
  | VUndef => "undefined"
  | VNull => "null"
  | VBool true => "true"
  | VBool false => "false"
  | VNum n => pretty n
  | VStr s => s
  | VFun src => src
  | VObj _ => "[object Object]"
  end.

(** [v === 'lit']. *)
Definition is_str (v : value) (lit : string) : bool :=
  match v with
  | VStr s => bool_decide (s = lit)
  | _ => false
  end.

(** [v === true], [v === false], [v === undefined]. *)
Definition is_true (v : value) : bool :=
  match v with VBool true => true | _ => false end.
Definition is_false (v : value) : bool :=
  match v with VBool false => true | _ => false end.
Definition is_undefined (v : value) : bool :=
  match v with VUndef => true | _ => false end.

(** [String.prototype.toUpperCase] and lodash's [_.upperFirst] on the ASCII
    letters (other bytes are kept). *)
Definition upper_ascii (c : ascii) : ascii :=
  let n := nat_of_ascii c in
  if (97 <=? n)%nat && (n <=? 122)%nat then ascii_of_nat (n - 32) else c.

Fixpoint toUpperCase (s : string) : string :=
  match s with
  | EmptyString => EmptyString
  | String c s' => String (upper_ascii c) (toUpperCase s')
  end.

Definition upperFirst (s : string) : string :=
  match s with
  | EmptyString => EmptyString
  | String c s' => String (upper_ascii c) s'
  end.

(** The line feed of the template literals. *)
Definition LF : string := String "010"%char EmptyString.

(** [Array.prototype.join]. *)
Definition join (sep : string) (l : list string) : string := String.concat sep l.

(** ** lodash predicates *)

(** [_.isEmpty]: only a non-empty string and an object with an own property
    are not empty. *)
Definition isEmpty (v : value) : bool :=
  match v with
  | VStr s => bool_decide (s = "")
  | VObj o => bool_decide (o = [])
  | _ => true
  end.

(** [_.isPlainObject]. *)
Definition isPlainObject (v : value) : bool :=
  match v with VObj _ => true | _ => false end.

(** ** Exceptions *)

Inductive exn : Type :=
| TypeError (msg : string)
| SyntaxError (msg : string).

Inductive result (A : Type) : Type :=
| Ok (a : A)
| Throw (e : exn).
Arguments Ok {A} a.
Arguments Throw {A} e.

#[global] Instance result_ret : MRet result := @Ok.
#[global] Instance result_bind : MBind result := fun A B f m =>
  match m with
  | Ok a => f a
  | Throw e => Throw e
  end.

(** [mapR f l] runs [f] over [l] from left to right and stops at the first
    exception, as [Array.prototype.map] does with a callback that throws. *)
Fixpoint mapR {A B : Type} (f : A -> result B) (l : list A) : result (list B) :=
  match l with
  | [] => Ok []
  | a :: l' => b ← f a; bs ← mapR f l'; Ok (b :: bs)
  end.

(** ** The host *)

(** A model (or component) of the registry; [attributes] lists the
    attributes in the order [Object.keys] enumerates them. *)
Record Model : Type := {
  globalId : string;
  kind : string;
  attributes : list (string * object);
}.

(** The process-wide [siapi] object, as far as the schema compiler reads it:
    [components] is [siapi.components]; [db_getModel ref plugin] is
    [siapi.db.getModel(ref, plugin)], [None] when it returns [undefined];
    [plugins_graphql_get path] is [_.get(siapi.plugins.graphql, path)]. *)
Record Siapi : Type := {
  components : gmap string Model;
  db_getModel : value -> value -> option Model;
  plugins_graphql_get : string -> value;
}.

(** Reading [.globalId] of a registry lookup: a miss is [undefined], and
    reading a property of [undefined] throws. *)
Definition globalIdOf (m : option Model) : result string :=
  match m with
  | Some m => Ok (globalId m)
  | None => Throw (TypeError "Cannot read property 'globalId' of undefined")
  end.

Section Types.

Variable siapi : Siapi.
(** [toSingular] and [toInputName] of the plugin's [naming] service, and
    lodash's [_.camelCase]. *)
Variable toSingular : string -> string.
Variable toInputName : string -> string.
Variable camelCase : string -> string.

Definition isScalarAttribute (attribute : object) : bool :=
  let type := prop attribute "type" in
  truthy type && negb (existsb (is_str type) ["component"; "dynamiczone"]).

Definition isTypeAttributeEnabled (model : Model) (attr : string) : bool :=
  negb (is_false (plugins_graphql_get siapi
    ("config._schema.graphql.type." +:+ globalId model +:+ "." +:+ attr))).

Definition convertEnumType (definition : object) (model field : string) : value :=
  if truthy (prop definition "enumName") then prop definition "enumName"
  else VStr ("ENUM_" +:+ toUpperCase model +:+ "_" +:+ toUpperCase field).

(** The [switch] of [convertType] on [attribute.type]. *)
Definition scalarType (attribute : object) (modelName attributeName : string) : value :=
  let type := prop attribute "type" in
  if is_str type "boolean" then VStr "Boolean"
  else if is_str type "integer" then VStr "Int"
  else if is_str type "biginteger" then VStr "Long"
  else if is_str type "float" || is_str type "decimal" then VStr "Float"
  else if is_str type "json" then VStr "JSON"
  else if is_str type "date" then VStr "Date"
  else if is_str type "time" then VStr "Time"
  else if is_str type "datetime" || is_str type "timestamp" then VStr "DateTime"
  else if is_str type "enumeration" then convertEnumType attribute modelName attributeName
  else VStr "String".

Definition convertType (attribute : object)
    (modelName attributeName rootType action : string) : result value :=
  if isScalarAttribute attribute then
    let type := scalarType attribute modelName attributeName in
    Ok (if truthy (prop attribute "required")
           && (negb (bool_decide (rootType = "mutation"))
               || (negb (bool_decide (action = "update"))
                   && is_undefined (prop attribute "default")))
        then VStr (toString type +:+ "!")
        else type)
  else if is_str (prop attribute "type") "component" then
    let required := prop attribute "required" in
    let repeatable := prop attribute "repeatable" in
    let component := prop attribute "component" in
    globalId ← globalIdOf (components siapi !! toString component);
    let typeName := if is_true required then globalId else globalId in
    let typeName :=
      if bool_decide (rootType = "mutation") then
        if bool_decide (action = "update")
        then "edit" +:+ upperFirst (toSingular globalId) +:+ "Input"
        else upperFirst (toSingular globalId) +:+ "Input"
             +:+ (if truthy required then "!" else "")
      else typeName in
    Ok (VStr (if is_true repeatable then "[" +:+ typeName +:+ "]" else typeName))
  else if is_str (prop attribute "type") "dynamiczone" then
    let required := prop attribute "required" in
    let unionName := modelName +:+ upperFirst (camelCase attributeName) +:+ "DynamicZone" in
    let typeName :=
      if bool_decide (rootType = "mutation") then unionName +:+ "Input!" else unionName in
    Ok (VStr ("[" +:+ typeName +:+ "]" +:+ (if truthy required then "!" else "")))
  else
    let ref := or_ (prop attribute "model") (prop attribute "collection") in
    if truthy ref && negb (is_str ref "*") then
      globalId ← globalIdOf (db_getModel siapi ref (prop attribute "plugin"));
      let plural := negb (isEmpty (prop attribute "collection")) in
      if plural then
        if bool_decide (rootType = "mutation") then Ok (VStr "[ID]")
        else Ok (VStr ("[" +:+ globalId +:+ "]"))
      else if bool_decide (rootType = "mutation") then Ok (VStr "ID")
      else Ok (VStr globalId)
    else if bool_decide (rootType = "mutation") then
      Ok (VStr (if truthy (prop attribute "model") then "ID" else "[ID]"))
    else
      Ok (VStr (if truthy (prop attribute "model") then "Morph" else "[Morph]")).

(** [model.attributes[attributeName]]; [convertType] reads a missing
    attribute as the empty object. *)
Fixpoint attributeOf (attrs : list (string * object)) (attributeName : string) : object :=
  match attrs with
  | [] => []
  | (k, a) :: attrs' =>
      if bool_decide (k = attributeName) then a else attributeOf attrs' attributeName
  end.

Definition addInput : string :=
  LF +:+ "      input InputID { id: ID!}" +:+ LF +:+ "    ".

(** One field line of an input type. *)
Definition inputField (model : Model) (action attributeName : string) : result string :=
  type ← convertType (attributeOf (attributes model) attributeName)
                     (globalId model) attributeName "mutation" action;
  Ok (attributeName +:+ ": " +:+ toString type).

Definition generateInputModel (model : Model) (name : string) (allowIds : bool)
    : result string :=
  let inputName := upperFirst (toSingular name) +:+ "Input" in
  let hasAllAttributesDisabled :=
    forallb (fun attr => negb (isTypeAttributeEnabled model attr))
            (attributes model).*1 in
  if bool_decide (attributes model = []) || hasAllAttributesDisabled then
    Ok (LF +:+ "      input " +:+ inputName +:+ " {" +:+ LF
        +:+ "        _: String" +:+ LF
        +:+ "      }" +:+ LF
        +:+ LF
        +:+ "      input edit" +:+ inputName +:+ " {" +:+ LF
        +:+ "        " +:+ (if allowIds then "id: ID" else "_: String") +:+ LF
        +:+ "      }" +:+ LF
        +:+ "     ")
  else
    createFields ← mapR (inputField model "")
      (List.filter (isTypeAttributeEnabled model) (attributes model).*1);
    editFields ← mapR (inputField model "update")
      (List.filter (isTypeAttributeEnabled model) (attributes model).*1);
    Ok (LF +:+ "      input " +:+ inputName +:+ " {" +:+ LF
        +:+ LF
        +:+ "        " +:+ join LF createFields +:+ LF
        +:+ "      }" +:+ LF
        +:+ LF
        +:+ "      input edit" +:+ inputName +:+ " {" +:+ LF
        +:+ "        " +:+ (if allowIds then "id: ID" else "") +:+ LF
        +:+ "        " +:+ join LF editFields +:+ LF
        +:+ "      }" +:+ LF
        +:+ "    ").

(** The line [type <mutationName>Payload { <singularName>: <globalId> }]
    every branch of [generateInputPayloadArguments] ends with. *)
Definition payloadLine (model : Model) (singularName mutationName : string) : string :=
  "          type " +:+ mutationName +:+ "Payload { " +:+ singularName +:+ ": "
  +:+ globalId model +:+ " }" +:+ LF +:+ "        ".

(** The result is a string, or [undefined] for an action the [switch]
    does not list. *)
Definition generateInputPayloadArguments (model : Model)
    (name mutationName action : string) : value :=
  let singularName := toSingular name in
  let inputName := toInputName name in
  if bool_decide (action = "create") then
    VStr (LF +:+ "          input " +:+ mutationName +:+ "Input { data: " +:+ inputName
          +:+ " }" +:+ LF +:+ payloadLine model singularName mutationName)
  else if bool_decide (action = "update") then
    if bool_decide (kind model = "singleType") then
      VStr (LF +:+ "          input " +:+ mutationName +:+ "Input  { data: edit"
            +:+ inputName +:+ " }" +:+ LF +:+ payloadLine model singularName mutationName)
    else
      VStr (LF +:+ "          input " +:+ mutationName
            +:+ "Input  { where: InputID, data: edit" +:+ inputName +:+ " }" +:+ LF
            +:+ payloadLine model singularName mutationName)
  else if bool_decide (action = "delete") then
    if bool_decide (kind model = "singleType") then
      VStr (LF +:+ payloadLine model singularName mutationName)
    else
      VStr (LF +:+ "          input " +:+ mutationName +:+ "Input  { where: InputID }"
            +:+ LF +:+ payloadLine model singularName mutationName)
  else VUndef.

End Types.

(** ** The polymorphic union *)

(** A top-level definition of a parsed GraphQL document, as far as
    [addPolymorphicUnionType] looks at it: an object type definition with
    its name ([def.name.value]), or a definition of another [kind]. *)
Inductive DefinitionNode : Type :=
| ObjectTypeDefinition (name : string)
| OtherDefinition (kind : string).

(** What [addPolymorphicUnionType] returns: the SDL text and the resolver
    map, type name to field name to function. *)
Record UnionType : Type := {
  definition : string;
  resolvers : list (string * list (string * (value -> result value)));
}.

(** [__resolveType(obj) { return obj.kind || obj.__contentType || null }]. *)
Definition resolveType (obj : value) : result value :=
  match obj with
  | VUndef | VNull => Throw (TypeError "Cannot read property 'kind' of undefined")
  | _ => Ok (or_ (or_ (propOf obj "kind") (propOf obj "__contentType")) VNull)
  end.

(** [def.kind === 'ObjectTypeDefinition' && def.name.value !== 'Query']. *)
Definition isMorphCandidate (def : DefinitionNode) : bool :=
  match def with
  | ObjectTypeDefinition name => negb (bool_decide (name = "Query"))
  | OtherDefinition _ => false
  end.

Definition nameValue (def : DefinitionNode) : string :=
  match def with
  | ObjectTypeDefinition name => name
  | OtherDefinition _ => ""
  end.

(** The [types] of [addPolymorphicUnionType]:
    [definitions.filter(...).map(def => def.name.value)]. *)
Definition morphTypes (defs : list DefinitionNode) : list string :=
  nameValue <$> List.filter isMorphCandidate defs.

Section Union.

(** [graphql.parse(text).definitions] of the [graphql] package; a text
    that is not a GraphQL document throws. *)
Variable graphql_parse : string -> result (list DefinitionNode).

Definition addPolymorphicUnionType (text : string) : result UnionType :=
  defs ← graphql_parse text;
  let types := morphTypes defs in
  if (0 <? Z.of_nat (length types)) then
    Ok {| definition := "union Morph = " +:+ join " | " types;
          resolvers := [("Morph", [("__resolveType", resolveType)])] |}
  else
    Ok {| definition := ""; resolvers := [] |}.

End Union.

(** ** Resolver metadata *)

(** The loop body over the resolver names of one type: a resolver entry
    that is a plain object receives [_metadatas]. The assignment mutates
    the entry in place; here the updated entry is stored back under its
    key. *)
Definition attachToEntry (api plugin : value) (entries : object) (resolverName : string)
    : object :=
  match prop entries resolverName with
  | VObj entry =>
      setProp entries resolverName
        (VObj (setProp entry "_metadatas" (VObj [("api", api); ("plugin", plugin)])))
  | _ => entries
  end.

(** The loop body over the type names of the resolver map. *)
Definition attachToType (api plugin : value) (resolver : object) (type : string) : object :=
  match prop resolver type with
  | VObj entries =>
      setProp resolver type
        (VObj (fold_left (attachToEntry api plugin) (keys entries) entries))
  | _ => resolver
  end.

Definition attachMetadataToResolvers (schema : object) (api plugin : value) : object :=
  let resolver :=
    if is_undefined (prop schema "resolver") then VObj [] else prop schema "resolver" in
  if isEmpty resolver then schema
  else
    match resolver with
    | VObj r => setProp schema "resolver" (VObj (fold_left (attachToType api plugin) (keys r) r))
    | _ =>
        (* a non-empty string: its keys are its indices, and no character
           is a plain object *)
        schema
    end.

(** ** Merging schemas *)

(** lodash's [assignMergeValue(dest, key, value)]: an [undefined] value
    is only written when the key is new. (lodash also skips the write when
    the property already holds the same value, which changes nothing.) *)
Definition assignMergeValue (dest : object) (key : string) (v : value) : object :=
  if negb (is_undefined v) || negb (hasOwn dest key) then setProp dest key v
  else dest.

(** The value lodash's [_.merge] stores under a key whose old value is
    [objValue] and whose source value is [srcValue] ([baseMergeDeep]): a
    plain-object source is merged, property by property, into the old value
    when that is an object and into a new object otherwise; a source that
    is a function or a primitive is taken as it is. These are the values of
    the model: an array, which lodash merges index by index, is not one of
    them, and neither is lodash's special case of the inherited key
    [constructor], under which a function of the source is skipped. *)
Fixpoint mergeDeep (objValue srcValue : value) {struct srcValue} : value :=
  match srcValue with
  | VObj source =>
      let newValue := match objValue with VObj o => o | _ => [] end in
      VObj (fold_left
              (fun dest kv => assignMergeValue dest kv.1 (mergeDeep (prop dest kv.1) kv.2))
              source newValue)
  | _ => srcValue
  end.

(** [_.merge(dest, source)] ([baseMerge]) on plain objects. *)
Definition merge (dest source : object) : object :=
  fold_left
    (fun dest kv => assignMergeValue dest kv.1 (mergeDeep (prop dest kv.1) kv.2))
    source dest.

(** [`${acc[field] || ''} ${el[field] || ''}`]. *)
Definition mergedText (acc el : object) (field : string) : value :=
  VStr (toString (or_ (prop acc field) (VStr "")) +:+ " "
        +:+ toString (or_ (prop el field) (VStr ""))).

(** The reducer of [mergeSchemas]. *)
Definition mergeSchemasStep (acc el : object) : object :=
  let type := prop el "type" in
  let resolver := prop el "resolver" in
  merge acc [("definition", mergedText acc el "definition");
             ("query", mergedText acc el "query");
             ("mutation", mergedText acc el "mutation");
             ("type", type);
             ("resolver", resolver)].

Definition mergeSchemas (schemas : list object) : object :=
  fold_left mergeSchemasStep schemas [].

(** ** Loading the fragments (hooks/graphql/index.js, [beforeInitialize])

    [apis], [plugins] and [extensions] list, in the order of [Object.keys],
    each key of [siapi.api], [siapi.plugins] and [extensions] with the
    fragment [_.get(..., 'config.schema.graphql', {})] found under it. An
    API fragment is tagged [{ api: key }], a plugin or extension fragment
    [{ plugin: key }]; the merge takes the plugins first, then the
    extensions, then the APIs. *)
Definition baseSchema (apis plugins extensions : list (string * object)) : object :=
  let apisSchemas :=
    (fun ks => attachMetadataToResolvers ks.2 (VStr ks.1) VUndef) <$> apis in
  let pluginsSchemas :=
    (fun ks => attachMetadataToResolvers ks.2 VUndef (VStr ks.1)) <$> plugins in
  let extensionsSchemas :=
    (fun ks => attachMetadataToResolvers ks.2 VUndef (VStr ks.1)) <$> extensions in
  mergeSchemas (pluginsSchemas ++ extensionsSchemas ++ apisSchemas).

(** ** SDL rendering (services/schema-definitions.js) *)

(** The double quote and the triple quote of a description block. *)
Definition DQ : string := String "034"%char EmptyString.
Definition TQ : string := DQ +:+ DQ +:+ DQ.

(** [key.split('(')[0]]: what comes before the first "(" of [key]. *)
Fixpoint beforeParen (key : string) : string :=
  match key with
  | EmptyString => EmptyString
  | String c key' =>
      if bool_decide (c = "("%char) then EmptyString else String c (beforeParen key')
  end.

(** lodash's [_.trim] on the white space of ASCII. *)
Fixpoint trimStart (s : string) : string :=
  match s with
  | EmptyString => EmptyString
  | String c s' => if Ascii.is_space c then trimStart s' else s
  end.

Fixpoint trimEnd (s : string) : string :=
  match s with
  | EmptyString => EmptyString
  | String c s' =>
      let rest := trimEnd s' in
      if Ascii.is_space c && bool_decide (rest = EmptyString) then EmptyString
      else String c rest
  end.

Definition trim (s : string) : string := trimStart (trimEnd s).

(** [_.isString], [v === null]. *)
Definition isString (v : value) : bool :=
  match v with VStr _ => true | _ => false end.
Definition is_null (v : value) : bool :=
  match v with VNull => true | _ => false end.

(** [_.get(model, 'info.description')]: lodash reads the path as one key
    when the object has a property of that very name, and as the path
    [info], [description] otherwise. *)
Definition getInfoDescription (model : value) : value :=
  match model with
  | VObj o =>
      if hasOwn o "info.description" then prop o "info.description"
      else propOf (prop o "info") "description"
  | _ => VUndef
  end.

(** [getTypeDescription(type, model)], with
    [_.get(type, '_description')] and [_.get(model, 'info.description')]. *)
Definition getTypeDescription (type model : value) : string :=
  let str := or_ (propOf type "_description") (getInfoDescription model) in
  if truthy str then TQ +:+ LF +:+ toString str +:+ LF +:+ TQ +:+ LF
  else "".

(** [applyMetadatas(definition, metadatas = {})]: destructuring [null]
    throws, [undefined] is the empty object, and a primitive has neither
    property. *)
Definition applyMetadatas (definition : string) (metadatas : value) : result string :=
  match metadatas with
  | VNull => Throw (TypeError "Cannot destructure property 'description' of null")
  | _ =>
      let description := propOf metadatas "description" in
      let deprecated := propOf metadatas "deprecated" in
      let tmpDef := definition in
      let tmpDef :=
        if truthy description
        then TQ +:+ LF +:+ toString description +:+ LF +:+ TQ +:+ LF +:+ tmpDef
        else tmpDef in
      let tmpDef :=
        if truthy deprecated
        then tmpDef +:+ " @deprecated(reason: " +:+ DQ +:+ toString deprecated +:+ DQ +:+ ")"
        else tmpDef in
      Ok tmpDef
  end.

(** [Object.entries] of a value that is not [null] or [undefined]: the
    properties of an object, the indexed characters of a string, nothing
    for the rest. *)
Fixpoint charEntries (i : nat) (s : string) : object :=
  match s with
  | EmptyString => []
  | String c s' => (pretty i, VStr (String c EmptyString)) :: charEntries (S i) s'
  end.

Definition entriesOf (v : value) : object :=
  match v with
  | VObj o => o
  | VStr s => charEntries 0 s
  | _ => []
  end.

Definition argumentsToSDL (args : value) : string :=
  if isEmpty args then ""
  else
    let sdlArgs :=
      join ", " ((fun kv => kv.1 +:+ ": " +:+ toString kv.2) <$> entriesOf args) in
    "(" +:+ sdlArgs +:+ ")".

(** The callback of [fieldsToSDL] on one entry of [fields]. *)
Definition fieldToSDL (configurations : object) (model : Model) (entry : string * value)
    : result string :=
  let key := entry.1 in
  let value := entry.2 in
  let attr := beforeParen key in
  let attributeName := trim attr in
  let description :=
    if isString (prop configurations attributeName) then prop configurations attributeName
    else or_ (propOf (prop configurations attributeName) "description")
             (prop (attributeOf (attributes model) attributeName) "description") in
  let deprecated :=
    or_ (propOf (prop configurations attributeName) "deprecated")
        (prop (attributeOf (attributes model) attributeName) "deprecated") in
  applyMetadatas (key +:+ ": " +:+ toString value)
                 (VObj [("description", description); ("deprecated", deprecated)]).

Definition fieldsToSDL (fields configurations : object) (model : Model) : result string :=
  lines ← mapR (fieldToSDL configurations model) fields;
  Ok (join LF lines).

(** The callback of [operationToSDL] on one entry of [fields]. *)
Definition operationFieldToSDL (configurations : object) (entry : string * value)
    : result string :=
  let key := entry.1 in
  let value := entry.2 in
  match value with
  | VStr s =>
      let attr := beforeParen key in
      let attributeName := trim attr in
      applyMetadatas (key +:+ ": " +:+ s) (prop configurations attributeName)
  | VUndef | VNull => Throw (TypeError "Cannot destructure property 'args' of value")
  | _ =>
      let args :=
        if is_undefined (propOf value "args") then VObj [] else propOf value "args" in
      let type := propOf value "type" in
      let query := key +:+ argumentsToSDL args +:+ ": " +:+ toString type in
      applyMetadatas query (prop configurations key)
  end.

Definition operationToSDL (fields configurations : object) : result string :=
  lines ← mapR (operationFieldToSDL configurations) fields;
  Ok (join LF lines).

Definition toSDL (fields configurations : object) (model : Model) (type : string)
    : result string :=
  if existsb (fun t => bool_decide (t = type)) ["query"; "mutation"]
  then operationToSDL fields configurations
  else fieldsToSDL fields configurations model.

(** ** A sample host

    A small registry and stand-ins for the naming helpers, used to run the
    definitions on concrete inputs: [toSingular] drops a final "s",
    [toInputName] is [<UpperFirst(singular)>Input] and [camelCase] leaves
    its (single-word) argument alone. *)
Module Sample.

Definition media : Model :=
  {| globalId := "ComponentSharedMedia";
     kind := "";
     attributes := [("url", [("type", VStr "string")])] |}.

Definition article : Model :=
  {| globalId := "Article";
     kind := "collectionType";
     attributes :=
       [("title", [("type", VStr "string"); ("required", VBool true)]);
        ("views", [("type", VStr "integer"); ("required", VBool true);
                   ("default", VNum 0)]);
        ("secret", [("type", VStr "string")]);
        ("cover", [("type", VStr "component"); ("component", VStr "shared.media");
                   ("repeatable", VBool true); ("required", VBool true)])] |}.

(** A single type all of whose attributes are switched off. *)
Definition homepage : Model :=
  {| globalId := "Homepage";
     kind := "singleType";
     attributes := [("secret", [("type", VStr "string")])] |}.

Definition siapi : Siapi :=
  {| components := {[ "shared.media" := media ]};
     db_getModel := fun ref _ => if is_str ref "article" then Some article else None;
     plugins_graphql_get := fun path =>
       if bool_decide (path = "config._schema.graphql.type.Article.secret")
          || bool_decide (path = "config._schema.graphql.type.Homepage.secret")
       then VBool false else VUndef |}.

Fixpoint toSingular (s : string) : string :=
  match s with
  | EmptyString => EmptyString
  | String c EmptyString => if bool_decide (c = "s"%char) then EmptyString else s
  | String c s' => String c (toSingular s')
  end.

Definition toInputName (name : string) : string :=
  upperFirst (toSingular name) +:+ "Input".

Definition camelCase (s : string) : string := s.

(** A fragment whose resolver map has a bare function and an object entry. *)
Definition fragmentA : object :=
  [("definition", VStr "type A { x: Int }");
   ("query", VStr "a: A");
   ("resolver",
    VObj [("Query",
           VObj [("x", VFun "function fnA() {}");
                 ("a", VObj [("description", VStr "one A");
                             ("resolver", VStr "application::a.a.findOne")])])])].

Definition fragmentB : object :=
  [("definition", VStr "type B { y: Int }");
   ("resolver",
    VObj [("Query",
           VObj [("x", VFun "function fnB() {}");
                 ("a", VObj [("policies", VStr "isAuthenticated")])])])].

Definition fragmentC : object :=
  [("definition", VStr "type C { z: Int }");
   ("mutation", VStr "c: C");
   ("resolver", VObj [("Mutation", VObj [("c", VFun "function fnC() {}")])])].

(** A plugin fragment that gives the entry [Query.a] of [fragmentA] too. *)
Definition fragmentP : object :=
  [("resolver",
    VObj [("Query",
           VObj [("x", VFun "function fnP() {}");
                 ("a", VObj [("policies", VStr "isAuthenticated")])])])].

(** The fields of a query block and overrides for them. *)
Definition queryFields : object :=
  [("article(id: ID!)", VStr "Article");
   ("articles", VObj [("args", VObj [("limit", VStr "Int"); ("start", VStr "Int")]);
                      ("type", VStr "[Article]")])].

Definition overrides : object :=
  [("title", VStr "The headline");
   ("views", VObj [("description", VStr "Page views"); ("deprecated", VStr "Use hits")]);
   ("article", VStr "One article")].

(** A relation to the articles, written with both [model] and
    [collection]. *)
Definition related : object :=
  [("model", VStr "article"); ("collection", VStr "article"); ("required", VBool true)].

Definition requiredInt : object :=
  [("type", VStr "integer"); ("required", VBool true)].

Definition requiredIntWithDefault : object :=
  [("type", VStr "integer"); ("required", VBool true); ("default", VNum 0)].

Definition cover : object :=
  [("type", VStr "component"); ("component", VStr "shared.media");
   ("repeatable", VBool true); ("required", VBool true)].

(** A table of what [graphql.parse] returns on three documents; every
    other text is taken to be malformed. *)
Definition parse (text : string) : result (list DefinitionNode) :=
  if bool_decide (text = "type Query { a: A } type A { x: Int } type A { y: Int }") then
    Ok [ObjectTypeDefinition "Query"; ObjectTypeDefinition "A"; ObjectTypeDefinition "A"]
  else if bool_decide (text = "type B { x: Int } input I { y: Int } type A { b: B }") then
    Ok [ObjectTypeDefinition "B"; OtherDefinition "InputObjectTypeDefinition";
        ObjectTypeDefinition "A"]
  else if bool_decide (text = "type Query { a: Int } enum E { X }") then
    Ok [ObjectTypeDefinition "Query"; OtherDefinition "EnumTypeDefinition"]
  else Throw (SyntaxError "Syntax Error").

End Sample.

(** The kinds [convertType] knows by name. *)
Definition recognizedKinds : list string :=
  ["boolean"; "integer"; "biginteger"; "float"; "decimal"; "json"; "date"; "time";
   "datetime"; "timestamp"; "enumeration"; "component"; "dynamiczone"].

(** What [attachMetadataToResolvers] does to one resolver entry: a plain
    object receives [_metadatas], anything else is left alone. *)
Definition annotated (api plugin : value) (entry : value) : value :=
  match entry with
  | VObj e => VObj (setProp e "_metadatas" (VObj [("api", api); ("plugin", plugin)]))
  | _ => entry
  end.

(** What the loop over the resolver names does to the value of one type. *)
Definition annotatedType (api plugin : value) (v : value) : value :=
  match v with
  | VObj entries => VObj (fold_left (attachToEntry api plugin) (keys entries) entries)
  | _ => v
  end.

(** The resolver entry [schema.resolver[type][name]], [undefined] when the
    path does not lead through objects. *)
Definition resolverEntry (schema : object) (type name : string) : value :=
  propOf (propOf (prop schema "resolver") type) name.

(** The text a fragment contributes to a field of the merged schema:
    [el[field] || '']. *)
Definition textOf (el : object) (field : string) : string :=
  toString (or_ (prop el field) (VStr "")).

(** [definesNoEntry el type name]: the fragment has no resolver map, or
    one (of distinct keys) that has no entry [resolver[type][name]]. *)
Definition definesNoEntry (el : object) (type name : string) : Prop :=
  match prop el "resolver" with
  | VUndef => True
  | VObj r =>
      NoDup (keys r)
      /\ match prop r type with
         | VUndef => True
         | VObj t => NoDup (keys t) /\ prop t name = VUndef
         | _ => False
         end
  | _ => False
  end.

(** The name of an object type definition, and of one that is not the
    root [Query] type. *)
Definition objectTypeName (def : DefinitionNode) : option string :=
  match def with
  | ObjectTypeDefinition name => Some name
  | OtherDefinition _ => None
  end.

Definition candidateName (def : DefinitionNode) : option string :=
  match def with
  | ObjectTypeDefinition name => if bool_decide (name = "Query") then None else Some name
  | OtherDefinition _ => None
  end.

(** The decorations [applyMetadatas] puts before and after a definition. *)
Definition descriptionBlock (description : value) : string :=
  if truthy description then TQ +:+ LF +:+ toString description +:+ LF +:+ TQ +:+ LF else "".

Definition deprecation (deprecated : value) : string :=
  if truthy deprecated
  then " @deprecated(reason: " +:+ DQ +:+ toString deprecated +:+ DQ +:+ ")"
  else "".

(** The entries of [fields] that [operationToSDL] renders without an
    exception: the value is a string and the configuration found under the
    name before "(" is not [null], or the value is neither [null] nor
    [undefined] and the configuration found under the whole key is not
    [null]. *)
Definition operationEntryOk (configurations : object) (entry : string * value) : bool :=
  match entry.2 with
  | VStr _ => negb (is_null (prop configurations (trim (beforeParen entry.1))))
  | VUndef | VNull => false
  | _ => negb (is_null (prop configurations entry.1))
  end.

(** The model without the attributes that are switched off. *)
Definition enabledOnly (siapi : Siapi) (model : Model) : Model :=
  {| globalId := globalId model;
     kind := kind model;
     attributes :=
       List.filter (fun kv => isTypeAttributeEnabled siapi model kv.1) (attributes model) |}.

(** * Properties *)

Lemma string_app_assoc (s1 s2 s3 : string) : (s1 +:+ s2) +:+ s3 = s1 +:+ s2 +:+ s3.
Proof.
  induction s1 as [|c s1 IH]; [done|].
  change (String c ((s1 +:+ s2) +:+ s3) = String c (s1 +:+ s2 +:+ s3)).
  by rewrite IH.
Qed.

(** ** The type mapper *)

Section TypeMapper.

Variable siapi : Siapi.
Variables toSingular camelCase : string -> string.

Lemma scalar_of_integer attribute :
  is_str (prop attribute "type") "integer" = true -> isScalarAttribute attribute = true.
Proof.
  unfold isScalarAttribute. destruct (prop attribute "type"); simpl; try discriminate.
  intros H. apply bool_decide_eq_true in H. by subst.
Qed.

Lemma scalarType_integer attribute modelName attributeName :
  is_str (prop attribute "type") "integer" = true ->
  scalarType attribute modelName attributeName = VStr "Int".
Proof.
  unfold scalarType. destruct (prop attribute "type"); simpl; try discriminate.
  intros H. apply bool_decide_eq_true in H. by subst.
Qed.

(** C1. On a scalar attribute [convertType] returns the resolved scalar
    name, followed by "!" exactly when [required] is set and it is not the
    case that the root type is 'mutation' and the action is 'update' or a
    default is defined. A required integer is "Int!" in a query and "Int"
    in a mutation update. *)
Theorem convertType_scalar_non_null attribute modelName attributeName rootType action :
  isScalarAttribute attribute = true ->
  let name := scalarType attribute modelName attributeName in
  let bang :=
    truthy (prop attribute "required")
    && negb (bool_decide (rootType = "mutation")
             && (bool_decide (action = "update")
                 || negb (is_undefined (prop attribute "default")))) in
  convertType siapi toSingular camelCase attribute modelName attributeName rootType action
    = Ok (if bang then VStr (toString name +:+ "!") else name)
  /\ (is_str (prop attribute "type") "integer" = true ->
      truthy (prop attribute "required") = true ->
      convertType siapi toSingular camelCase attribute modelName attributeName "query" action = Ok (VStr "Int!")
      /\ convertType siapi toSingular camelCase attribute modelName attributeName "mutation" "update"
         = Ok (VStr "Int")).
Proof.
  intros Hs name bang. split.
  - unfold convertType. rewrite Hs. subst name bang. f_equal.
    destruct (truthy (prop attribute "required")),
      (bool_decide (rootType = "mutation")),
      (bool_decide (action = "update")),
      (is_undefined (prop attribute "default")); reflexivity.
  - intros Hi Hr. unfold convertType.
    rewrite Hs, Hr, (scalarType_integer _ _ _ Hi). split; reflexivity.
Qed.

(** C2 (amended). The required integer attribute with [default: 0] is
    "Int!" in a query: a default relaxes the non-null marker in a mutation
    only, where a create renders "Int". *)
Theorem convertType_default_relaxes_mutation_only modelName attributeName :
  convertType siapi toSingular camelCase Sample.requiredIntWithDefault modelName attributeName "query" ""
    = Ok (VStr "Int!")
  /\ convertType siapi toSingular camelCase Sample.requiredIntWithDefault modelName attributeName "mutation" ""
     = Ok (VStr "Int")
  /\ convertType siapi toSingular camelCase Sample.requiredInt modelName attributeName "mutation" ""
     = Ok (VStr "Int!").
Proof. repeat split. Qed.

Lemma component_not_scalar attribute :
  is_str (prop attribute "type") "component" = true -> isScalarAttribute attribute = false.
Proof.
  unfold isScalarAttribute. intros H. simpl. rewrite H. simpl. apply andb_false_r.
Qed.

(** C3. On a component attribute whose component is registered,
    [convertType] wraps the type name in brackets exactly when [repeatable]
    is [true]; in a mutation the name is [edit<UpperFirst(Singular(globalId))>Input]
    for an update and [<UpperFirst(Singular(globalId))>Input], followed by
    "!" exactly when [required] is set, otherwise; outside a mutation it is
    the component's [globalId], whatever [required] is. A repeatable
    required component of a mutation create is [[<Singular>Input!]]. *)
Theorem convertType_component attribute modelName attributeName rootType action m :
  is_str (prop attribute "type") "component" = true ->
  components siapi !! toString (prop attribute "component") = Some m ->
  let wrap := fun typeName : string =>
    VStr (if is_true (prop attribute "repeatable") then "[" +:+ typeName +:+ "]"
          else typeName) in
  let singular := upperFirst (toSingular (globalId m)) in
  (rootType = "mutation" -> action = "update" ->
   convertType siapi toSingular camelCase attribute modelName attributeName rootType action
     = Ok (wrap ("edit" +:+ singular +:+ "Input")))
  /\ (rootType = "mutation" -> action <> "update" ->
      convertType siapi toSingular camelCase attribute modelName attributeName rootType action
        = Ok (wrap (singular +:+ "Input"
                    +:+ (if truthy (prop attribute "required") then "!" else ""))))
  /\ (rootType <> "mutation" ->
      convertType siapi toSingular camelCase attribute modelName attributeName rootType action
        = Ok (wrap (globalId m)))
  /\ (prop attribute "repeatable" = VBool true -> prop attribute "required" = VBool true ->
      convertType siapi toSingular camelCase attribute modelName attributeName
        "mutation" "create"
        = Ok (VStr ("[" +:+ (singular +:+ "Input!") +:+ "]"))).
Proof.
  intros Hc Hm wrap singular. unfold convertType.
  rewrite (component_not_scalar _ Hc), Hc, Hm. simpl.
  repeat split.
  - intros -> ->. reflexivity.
  - intros -> Hn. rewrite bool_decide_eq_true_2 by done.
    rewrite (bool_decide_eq_false_2 _ Hn). reflexivity.
  - intros Hn. rewrite (bool_decide_eq_false_2 _ Hn).
    subst wrap. simpl. by destruct (is_true (prop attribute "required")).
  - intros Hrep Hreq. by rewrite Hrep, Hreq.
Qed.

Lemma existsb_is_str_false v l lit :
  existsb (is_str v) l = false -> lit ∈ l -> is_str v lit = false.
Proof.
  intros H Hin. destruct (is_str v lit) eqn:E; [|done].
  rewrite <- H. symmetry. apply existsb_exists. exists lit.
  split; [by apply list_elem_of_In|done].
Qed.

Lemma unrecognized_is_scalar attribute :
  truthy (prop attribute "type") = true ->
  existsb (is_str (prop attribute "type")) recognizedKinds = false ->
  isScalarAttribute attribute = true.
Proof.
  intros Ht Hk. unfold isScalarAttribute. rewrite Ht. simpl.
  rewrite !(existsb_is_str_false _ _ _ Hk); [done| |]; unfold recognizedKinds; set_solver.
Qed.

Lemma unrecognized_scalarType attribute modelName attributeName :
  existsb (is_str (prop attribute "type")) recognizedKinds = false ->
  scalarType attribute modelName attributeName = VStr "String".
Proof.
  intros Hk. unfold scalarType.
  rewrite !(existsb_is_str_false _ _ _ Hk); [done|..]; unfold recognizedKinds; set_solver.
Qed.

(** C8 (amended). An attribute whose [type] is truthy and none of the
    kinds known by name is rendered as "String", with "!" by the rule for
    required scalars. An attribute with no [type], no [model] and no
    [collection] is rendered as "[ID]" in a mutation and as "[Morph]"
    otherwise. [convertType] only throws when a component is missing from
    [siapi.components] or a relation target is unknown to
    [siapi.db.getModel]. *)
Theorem convertType_unrecognized attribute modelName attributeName rootType action :
  (truthy (prop attribute "type") = true ->
   existsb (is_str (prop attribute "type")) recognizedKinds = false ->
   convertType siapi toSingular camelCase attribute modelName attributeName rootType action
     = Ok (VStr (if truthy (prop attribute "required")
                    && negb (bool_decide (rootType = "mutation")
                             && (bool_decide (action = "update")
                                 || negb (is_undefined (prop attribute "default"))))
                 then "String!" else "String")))
  /\ (truthy (prop attribute "type") = false ->
      truthy (prop attribute "model") = false ->
      truthy (prop attribute "collection") = false ->
      convertType siapi toSingular camelCase attribute modelName attributeName rootType action
        = Ok (VStr (if bool_decide (rootType = "mutation") then "[ID]" else "[Morph]")))
  /\ (forall e,
      convertType siapi toSingular camelCase attribute modelName attributeName rootType action
        = Throw e ->
      (is_str (prop attribute "type") "component" = true
       /\ components siapi !! toString (prop attribute "component") = None)
      \/ (let ref := or_ (prop attribute "model") (prop attribute "collection") in
          truthy ref = true /\ is_str ref "*" = false
          /\ db_getModel siapi ref (prop attribute "plugin") = None)).
Proof.
  repeat split.
  - intros Ht Hk. unfold convertType.
    rewrite (unrecognized_is_scalar _ Ht Hk), (unrecognized_scalarType _ _ _ Hk).
    f_equal.
    destruct (truthy (prop attribute "required")),
      (bool_decide (rootType = "mutation")),
      (bool_decide (action = "update")),
      (is_undefined (prop attribute "default")); reflexivity.
  - intros Ht Hm Hc. unfold convertType, isScalarAttribute. rewrite Ht. simpl.
    assert (forall lit, lit <> "" -> is_str (prop attribute "type") lit = false) as Hs.
    { intros lit Hl. destruct (prop attribute "type"); try done.
      simpl in *. apply negb_false_iff, bool_decide_eq_true in Ht. subst.
      by apply bool_decide_eq_false_2. }
    rewrite !Hs by done. unfold or_. rewrite Hm, Hc. simpl.
    by destruct (bool_decide (rootType = "mutation")).
  - intros e. unfold convertType.
    destruct (isScalarAttribute attribute); [done|].
    destruct (is_str (prop attribute "type") "component") eqn:Ec.
    + destruct (components siapi !! toString (prop attribute "component")); [done|].
      intros _. by left.
    + destruct (is_str (prop attribute "type") "dynamiczone"); [done|].
      destruct (truthy (or_ (prop attribute "model") (prop attribute "collection"))) eqn:Er;
        simpl.
      * destruct (is_str (or_ (prop attribute "model") (prop attribute "collection")) "*")
          eqn:Es; simpl.
        -- by destruct (bool_decide (rootType = "mutation")).
        -- destruct (db_getModel siapi _ _) eqn:Eg; simpl.
           ++ by repeat case_match.
           ++ intros _. right. cbv zeta. done.
      * by destruct (bool_decide (rootType = "mutation")).
Qed.

End TypeMapper.

(** C2, as stated, fails: in a query the attribute
    [{type: "integer", required: true, default: 0}] is not "Int". *)
Lemma convertType_default_query_counterexample :
  convertType Sample.siapi Sample.toSingular Sample.camelCase
    Sample.requiredIntWithDefault "Article" "views" "query" ""
  <> Ok (VStr "Int").
Proof. vm_compute. discriminate. Qed.

Lemma convertType_scalar_non_null_witness :
  convertType Sample.siapi Sample.toSingular Sample.camelCase
    Sample.requiredInt "Article" "views" "query" "" = Ok (VStr "Int!")
  /\ convertType Sample.siapi Sample.toSingular Sample.camelCase
       Sample.requiredInt "Article" "views" "mutation" "update" = Ok (VStr "Int").
Proof.
  apply (convertType_scalar_non_null Sample.siapi Sample.toSingular Sample.camelCase
           Sample.requiredInt "Article" "views" "query" "");
    reflexivity.
Defined.

(** The enumeration of [Article.status] without an [enumName], a plural
    relation written by a mutation and a required dynamic zone read by a
    query. *)
Example convertType_enumeration :
  convertType Sample.siapi Sample.toSingular Sample.camelCase
    [("type", VStr "enumeration")] "Article" "status" "query" ""
  = Ok (VStr "ENUM_ARTICLE_STATUS").
Proof. reflexivity. Qed.

Example convertType_plural_relation :
  convertType Sample.siapi Sample.toSingular Sample.camelCase
    [("collection", VStr "article")] "Article" "related" "mutation" "create"
  = Ok (VStr "[ID]").
Proof. reflexivity. Qed.

Example convertType_dynamiczone :
  convertType Sample.siapi Sample.toSingular Sample.camelCase
    [("type", VStr "dynamiczone"); ("required", VBool true)] "Article" "body" "query" ""
  = Ok (VStr "[ArticleBodyDynamicZone]!").
Proof. reflexivity. Qed.

(** ** The input and payload generators *)

Section Generators.

Variable siapi : Siapi.
Variables toSingular toInputName camelCase : string -> string.

(** C4. [generateInputPayloadArguments] by action and kind: a create has
    the input [{ data: <InputName> }] for every kind; an update has
    [{ data: edit<InputName> }] for a single type and
    [{ where: InputID, data: edit<InputName> }] otherwise; a delete has no
    input at all for a single type and [{ where: InputID }] otherwise; every
    one of them ends with the payload type
    [type <mutationName>Payload { <singularName>: <globalId> }], and
    [InputID] is [{ id: ID!}]. *)
Theorem generateInputPayloadArguments_cases (model : Model) (name mutationName : string) :
  let generate := generateInputPayloadArguments toSingular toInputName model name mutationName in
  let input := fun fields : string =>
    "          input " +:+ mutationName +:+ fields +:+ LF in
  let payload :=
    "          type " +:+ mutationName +:+ "Payload { " +:+ toSingular name +:+ ": "
    +:+ globalId model +:+ " }" +:+ LF +:+ "        " in
  generate "create"
    = VStr (LF +:+ input ("Input { data: " +:+ toInputName name +:+ " }") +:+ payload)
  /\ (kind model = "singleType" ->
      generate "update"
        = VStr (LF +:+ input ("Input  { data: edit" +:+ toInputName name +:+ " }")
                +:+ payload)
      /\ generate "delete" = VStr (LF +:+ payload))
  /\ (kind model <> "singleType" ->
      generate "update"
        = VStr (LF +:+ input ("Input  { where: InputID, data: edit" +:+ toInputName name
                              +:+ " }") +:+ payload)
      /\ generate "delete"
         = VStr (LF +:+ input "Input  { where: InputID }" +:+ payload))
  /\ addInput = LF +:+ "      input InputID { id: ID!}" +:+ LF +:+ "    ".
Proof.
  intros generate input payload.
  subst generate input payload. unfold generateInputPayloadArguments, payloadLine.
  repeat split.
  - simpl. by rewrite !string_app_assoc.
  - simpl. rewrite bool_decide_eq_true_2 by done. by rewrite !string_app_assoc.
  - simpl. by rewrite bool_decide_eq_true_2 by done.
  - simpl. rewrite bool_decide_eq_false_2 by done. by rewrite !string_app_assoc.
  - simpl. rewrite bool_decide_eq_false_2 by done. by rewrite !string_app_assoc.
Qed.

Lemma forallb_disabled (model : Model) :
  (forall attr, attr ∈ (attributes model).*1 ->
                isTypeAttributeEnabled siapi model attr = false) ->
  forallb (fun attr => negb (isTypeAttributeEnabled siapi model attr))
          (attributes model).*1 = true.
Proof.
  intros H. apply forallb_forall. intros attr Hin.
  rewrite H; [done|]. by apply list_elem_of_In.
Qed.

(** C7. A model with no attribute, or all of whose attributes are
    disabled, gets a create input whose only field is [_: String] and an
    edit input whose only field is [id: ID] when [allowIds] is set and
    [_: String] when it is not. *)
Theorem generateInputModel_degenerate (model : Model) (name : string) (allowIds : bool) :
  attributes model = []
  \/ (forall attr, attr ∈ (attributes model).*1 ->
                   isTypeAttributeEnabled siapi model attr = false) ->
  let inputName := upperFirst (toSingular name) +:+ "Input" in
  generateInputModel siapi toSingular camelCase model name allowIds
    = Ok (LF +:+ "      input " +:+ inputName +:+ " {" +:+ LF
          +:+ "        _: String" +:+ LF
          +:+ "      }" +:+ LF
          +:+ LF
          +:+ "      input edit" +:+ inputName +:+ " {" +:+ LF
          +:+ "        " +:+ (if allowIds then "id: ID" else "_: String") +:+ LF
          +:+ "      }" +:+ LF
          +:+ "     ").
Proof.
  intros H inputName. unfold generateInputModel.
  destruct H as [H|H].
  - by rewrite H.
  - rewrite (forallb_disabled _ H). by rewrite orb_true_r.
Qed.

Lemma not_degenerate (model : Model) (attr : string) :
  attr ∈ (attributes model).*1 ->
  isTypeAttributeEnabled siapi model attr = true ->
  bool_decide (attributes model = [])
  || forallb (fun attr => negb (isTypeAttributeEnabled siapi model attr))
             (attributes model).*1 = false.
Proof.
  intros Hin Hen. apply orb_false_iff. split.
  - apply bool_decide_eq_false_2. intros E. rewrite E in Hin. by apply elem_of_nil in Hin.
  - apply not_true_is_false. intros Hall.
    rewrite forallb_forall in Hall.
    specialize (Hall attr (proj1 (list_elem_of_In _ _) Hin)).
    by rewrite Hen in Hall.
Qed.

(** C10. For a model with an enabled attribute whose attributes all
    convert, the create input lists the converted attributes only, whatever
    [allowIds] is, and the edit input starts with [id: ID], before the
    converted attributes, exactly when [allowIds] is set. *)
Theorem generateInputModel_allowIds (model : Model) (name attr : string)
    (createFields editFields : list string) (allowIds : bool) :
  attr ∈ (attributes model).*1 ->
  isTypeAttributeEnabled siapi model attr = true ->
  mapR (inputField siapi toSingular camelCase model "")
       (List.filter (isTypeAttributeEnabled siapi model) (attributes model).*1)
    = Ok createFields ->
  mapR (inputField siapi toSingular camelCase model "update")
       (List.filter (isTypeAttributeEnabled siapi model) (attributes model).*1)
    = Ok editFields ->
  let inputName := upperFirst (toSingular name) +:+ "Input" in
  generateInputModel siapi toSingular camelCase model name allowIds
    = Ok (LF +:+ "      input " +:+ inputName +:+ " {" +:+ LF
          +:+ LF
          +:+ "        " +:+ join LF createFields +:+ LF
          +:+ "      }" +:+ LF
          +:+ LF
          +:+ "      input edit" +:+ inputName +:+ " {" +:+ LF
          +:+ "        " +:+ (if allowIds then "id: ID" else "") +:+ LF
          +:+ "        " +:+ join LF editFields +:+ LF
          +:+ "      }" +:+ LF
          +:+ "    ").
Proof.
  intros Hin Hen Hc He inputName. unfold generateInputModel.
  rewrite (not_degenerate _ _ Hin Hen), Hc, He. reflexivity.
Qed.

End Generators.

(** ** The polymorphic union *)

Section UnionBuilder.

Variable graphql_parse : string -> result (list DefinitionNode).

Lemma morphTypes_candidates defs : morphTypes defs = omap candidateName defs.
Proof.
  unfold morphTypes. induction defs as [|[name|k] defs IH]; simpl; [done| |done].
  case_bool_decide; simpl; [done|]. by f_equal.
Qed.

Lemma morphTypes_sublist defs : morphTypes defs `sublist_of` omap objectTypeName defs.
Proof.
  rewrite morphTypes_candidates.
  induction defs as [|[name|k] defs IH]; simpl; [done| |done].
  case_bool_decide; by constructor.
Qed.

Lemma candidates_filter defs :
  omap candidateName defs
  = List.filter (fun name => negb (bool_decide (name = "Query"))) (omap objectTypeName defs).
Proof.
  induction defs as [|[name|k] defs IH]; csimpl; [done| |done].
  case_bool_decide; csimpl; by rewrite IH.
Qed.

(** C6 (amended). When the text parses, the members of the union are the
    names of the object type definitions other than [Query], in the order
    of the document and as often as the document defines them; they are
    free of duplicates exactly when the names of the object types other
    than [Query] are, so in particular when all the object type names of
    the document are. With a member the result is
    [union Morph = A | B | ...] and the [Morph] resolver; with none it is
    the empty definition and no resolver. *)
Theorem addPolymorphicUnionType_members (text : string) (defs : list DefinitionNode) :
  graphql_parse text = Ok defs ->
  let types := omap candidateName defs in
  (NoDup (omap objectTypeName defs) -> NoDup types)
  /\ addPolymorphicUnionType graphql_parse text
     = Ok (match types with
           | [] => {| definition := ""; resolvers := [] |}
           | _ => {| definition := "union Morph = " +:+ join " | " types;
                     resolvers := [("Morph", [("__resolveType", resolveType)])] |}
           end)
  /\ (NoDup types
      <-> NoDup (List.filter (fun name => negb (bool_decide (name = "Query")))
                             (omap objectTypeName defs))).
Proof.
  intros Hp types. split; [|split].
  - intros Hnd. subst types. rewrite <- morphTypes_candidates.
    eapply sublist_NoDup; [exact Hnd|apply morphTypes_sublist].
  - unfold addPolymorphicUnionType. rewrite Hp. simpl.
    rewrite morphTypes_candidates. fold types. by destruct types.
  - subst types. by rewrite candidates_filter.
Qed.

End UnionBuilder.

(** ** Objects *)

Lemma prop_setProp (o : object) (k k' : string) (v : value) :
  prop (setProp o k v) k' = if bool_decide (k = k') then v else prop o k'.
Proof.
  induction o as [|[k0 v0] o IH]; simpl.
  - by case_bool_decide.
  - destruct (bool_decide (k0 = k)) eqn:E0; simpl.
    + apply bool_decide_eq_true in E0 as ->. by case_bool_decide.
    + rewrite IH. apply bool_decide_eq_false in E0.
      repeat case_bool_decide; congruence.
Qed.

Lemma setProp_idemp (o : object) (k : string) (v : value) :
  setProp (setProp o k v) k v = setProp o k v.
Proof.
  induction o as [|[k0 v0] o IH]; simpl.
  - by rewrite bool_decide_eq_true_2.
  - destruct (bool_decide (k0 = k)) eqn:E0; simpl; rewrite E0; [done|]. by rewrite IH.
Qed.

Lemma setProp_prop (o : object) (k : string) :
  prop o k <> VUndef -> setProp o k (prop o k) = o.
Proof.
  induction o as [|[k0 v0] o IH]; simpl; [done|].
  case_bool_decide; [done|]. intros Hne. by rewrite IH.
Qed.

Lemma prop_not_own (o : object) (k : string) : hasOwn o k = false -> prop o k = VUndef.
Proof.
  induction o as [|[k0 v0] o IH]; simpl; [done|]. by case_bool_decide.
Qed.

Lemma prop_not_key (o : object) (k : string) : k ∉ keys o -> prop o k = VUndef.
Proof.
  unfold keys. induction o as [|[k0 v0] o IH]; simpl; [done|].
  intros H. apply not_elem_of_cons in H as [H1 H2].
  rewrite bool_decide_eq_false_2 by done. auto.
Qed.

(** A loop over keys that rewrites each visited property by [g]. *)
Lemma prop_fold_left_update (step : object -> string -> object) (g : value -> value) :
  (forall o n k, prop (step o n) k = if bool_decide (n = k) then g (prop o k) else prop o k) ->
  (forall v, g (g v) = g v) ->
  forall ks o k,
    prop (fold_left step ks o) k = if bool_decide (k ∈ ks) then g (prop o k) else prop o k.
Proof.
  intros Hstep Hg ks. induction ks as [|n ks IH]; intros o k; cbn [fold_left].
  - case_bool_decide as Hin; [by apply elem_of_nil in Hin|done].
  - rewrite IH, Hstep.
    destruct (decide (n = k)) as [->|Hn].
    + rewrite (bool_decide_eq_true_2 (k = k)) by done.
      rewrite (bool_decide_eq_true_2 (k ∈ k :: ks)) by set_solver.
      rewrite Hg. by case_bool_decide.
    + rewrite (bool_decide_eq_false_2 (n = k)) by done.
      destruct (decide (k ∈ ks)).
      * by rewrite !bool_decide_eq_true_2 by set_solver.
      * rewrite (bool_decide_eq_false_2 (k ∈ n :: ks)).
        -- by rewrite bool_decide_eq_false_2.
        -- intros [?|?]%elem_of_cons; congruence.
Qed.

Lemma keys_setProp_own (o : object) (k : string) (v : value) :
  prop o k <> VUndef -> keys (setProp o k v) = keys o.
Proof.
  unfold keys. induction o as [|[k0 v0] o IH]; simpl; [done|].
  case_bool_decide; [done|]. intros Hne. csimpl. by rewrite IH.
Qed.

(** ** Resolver metadata *)

Section Metadata.

Variables api plugin : value.

Lemma annotated_idemp (v : value) : annotated api plugin (annotated api plugin v) = annotated api plugin v.
Proof. destruct v; simpl; try done. by rewrite setProp_idemp. Qed.

Lemma prop_attachToEntry (entries : object) (n k : string) :
  prop (attachToEntry api plugin entries n) k
  = if bool_decide (n = k) then annotated api plugin (prop entries k) else prop entries k.
Proof.
  unfold attachToEntry. destruct (prop entries n) eqn:E;
    try (case_bool_decide; [subst; by rewrite E|done]).
  rewrite prop_setProp. case_bool_decide; [subst; by rewrite E|done].
Qed.

Lemma prop_attachToEntries (entries : object) (k : string) :
  prop (fold_left (attachToEntry api plugin) (keys entries) entries) k
  = annotated api plugin (prop entries k).
Proof.
  rewrite (prop_fold_left_update _ _ prop_attachToEntry annotated_idemp).
  case_bool_decide as Hin; [done|]. by rewrite (prop_not_key _ _ Hin).
Qed.

(** Entries that are already annotated are left as they are. *)
Lemma attachToEntry_fixed (ks : list string) (entries : object) :
  (forall k, annotated api plugin (prop entries k) = prop entries k) ->
  fold_left (attachToEntry api plugin) ks entries = entries.
Proof.
  intros Hfix. induction ks as [|n ks IH]; simpl; [done|].
  assert (attachToEntry api plugin entries n = entries) as ->; [|done].
  unfold attachToEntry. specialize (Hfix n).
  destruct (prop entries n) eqn:E; try done.
  simpl in Hfix. rewrite Hfix, <- E. apply setProp_prop. by rewrite E.
Qed.

Lemma annotatedType_idemp (v : value) : annotatedType api plugin (annotatedType api plugin v) = annotatedType api plugin v.
Proof.
  destruct v as [| | | | | |entries]; simpl; try done. f_equal.
  apply attachToEntry_fixed. intros k.
  by rewrite prop_attachToEntries, annotated_idemp.
Qed.

Lemma prop_attachToType (resolver : object) (n k : string) :
  prop (attachToType api plugin resolver n) k
  = if bool_decide (n = k) then annotatedType api plugin (prop resolver k) else prop resolver k.
Proof.
  unfold attachToType. destruct (prop resolver n) eqn:E;
    try (case_bool_decide; [subst; by rewrite E|done]).
  rewrite prop_setProp. case_bool_decide; [subst; by rewrite E|done].
Qed.

Lemma prop_attachToTypes (resolver : object) (k : string) :
  prop (fold_left (attachToType api plugin) (keys resolver) resolver) k
  = annotatedType api plugin (prop resolver k).
Proof.
  rewrite (prop_fold_left_update _ _ prop_attachToType annotatedType_idemp).
  case_bool_decide as Hin; [done|]. by rewrite (prop_not_key _ _ Hin).
Qed.

Lemma propOf_annotatedType (v : value) (name : string) :
  propOf (annotatedType api plugin v) name = annotated api plugin (propOf v name).
Proof. destruct v; simpl; try done. apply prop_attachToEntries. Qed.

Lemma resolverEntry_attach (schema : object) (type name : string) :
  resolverEntry (attachMetadataToResolvers schema api plugin) type name
  = annotated api plugin (resolverEntry schema type name).
Proof.
  unfold resolverEntry, attachMetadataToResolvers.
  destruct (prop schema "resolver") as [| | | | | |r] eqn:E; simpl;
    try (rewrite E; done).
  - by destruct (bool_decide (s = "")); rewrite E.
  - case_bool_decide; [subst; by rewrite E|].
    rewrite prop_setProp. simpl.
    by rewrite prop_attachToTypes, propOf_annotatedType.
Qed.

Lemma keys_attachToEntry (entries : object) (n : string) :
  keys (attachToEntry api plugin entries n) = keys entries.
Proof.
  unfold attachToEntry. destruct (prop entries n) eqn:E; try done.
  apply keys_setProp_own. by rewrite E.
Qed.

Lemma keys_attachToEntries (ks : list string) (entries : object) :
  keys (fold_left (attachToEntry api plugin) ks entries) = keys entries.
Proof.
  revert entries. induction ks as [|n ks IH]; intros entries; simpl; [done|].
  by rewrite IH, keys_attachToEntry.
Qed.

Lemma keys_attachToType (resolver : object) (n : string) :
  keys (attachToType api plugin resolver n) = keys resolver.
Proof.
  unfold attachToType. destruct (prop resolver n) eqn:E; try done.
  apply keys_setProp_own. by rewrite E.
Qed.

Lemma keys_attachToTypes (ks : list string) (resolver : object) :
  keys (fold_left (attachToType api plugin) ks resolver) = keys resolver.
Proof.
  revert resolver. induction ks as [|n ks IH]; intros resolver; simpl; [done|].
  by rewrite IH, keys_attachToType.
Qed.

Lemma resolver_attach (schema r : object) :
  prop schema "resolver" = VObj r ->
  prop (attachMetadataToResolvers schema api plugin) "resolver"
  = VObj (fold_left (attachToType api plugin) (keys r) r).
Proof.
  intros Hr. unfold attachMetadataToResolvers. rewrite Hr. simpl.
  case_bool_decide as Hnil.
  - subst r. by rewrite Hr.
  - rewrite prop_setProp. by rewrite bool_decide_eq_true_2.
Qed.


End Metadata.

(** ** Merging schemas *)

Lemma string_app_nil_r (s : string) : s +:+ "" = s.
Proof.
  induction s as [|c s IH]; [done|].
  change (String c (s +:+ "") = String c s). by rewrite IH.
Qed.

Lemma is_undefined_mergeDeep (objValue srcValue : value) :
  is_undefined (mergeDeep objValue srcValue) = is_undefined srcValue.
Proof. by destruct srcValue. Qed.

Lemma mergeDeep_object (objValue : value) (source : object) :
  mergeDeep objValue (VObj source)
  = VObj (merge (match objValue with VObj o => o | _ => [] end) source).
Proof. reflexivity. Qed.

Lemma mergeDeep_not_object (objValue srcValue : value) :
  isPlainObject srcValue = false -> mergeDeep objValue srcValue = srcValue.
Proof. by destruct srcValue. Qed.

Lemma prop_assignMergeValue (dest : object) (key k : string) (v : value) :
  prop (assignMergeValue dest key v) k
  = if bool_decide (key = k) then (if is_undefined v then prop dest k else v)
    else prop dest k.
Proof.
  unfold assignMergeValue.
  destruct (is_undefined v) eqn:Ev; simpl.
  - destruct (hasOwn dest key) eqn:Eo; simpl.
    + by case_bool_decide.
    + rewrite prop_setProp. case_bool_decide; [subst|done].
      rewrite (prop_not_own _ _ Eo). by destruct v.
  - apply prop_setProp.
Qed.

(** A property of the merged object: the old value when the source does
    not define it, and the deep merge of the old and the source value when
    it does. *)
Lemma prop_merge (source dest : object) (k : string) :
  NoDup (keys source) ->
  prop (merge dest source) k
  = if is_undefined (prop source k) then prop dest k
    else mergeDeep (prop dest k) (prop source k).
Proof.
  unfold merge, keys. revert dest.
  induction source as [|[k0 v0] source IH]; intros dest Hnd; simpl; [done|].
  apply NoDup_cons in Hnd as [Hk0 Hnd].
  rewrite (IH _ Hnd), prop_assignMergeValue. simpl.
  case_bool_decide as Hk.
  - subst k0. rewrite (prop_not_key source k Hk0). simpl.
    rewrite is_undefined_mergeDeep. by destruct (is_undefined v0).
  - done.
Qed.

(** Distinctness of the keys of a concrete object. *)
Ltac distinct_keys := apply (bool_decide_unpack _); vm_compute; exact I.

Lemma step_keys_NoDup : NoDup ["definition"; "query"; "mutation"; "type"; "resolver"].
Proof. distinct_keys. Qed.

Lemma prop_step (acc el : object) (k : string) :
  prop (mergeSchemasStep acc el) k
  = let source := [("definition", mergedText acc el "definition");
                   ("query", mergedText acc el "query");
                   ("mutation", mergedText acc el "mutation");
                   ("type", prop el "type");
                   ("resolver", prop el "resolver")] in
    if is_undefined (prop source k) then prop acc k
    else mergeDeep (prop acc k) (prop source k).
Proof. unfold mergeSchemasStep. apply prop_merge, step_keys_NoDup. Qed.

Lemma textOf_VStr (o : object) (field s : string) : prop o field = VStr s -> textOf o field = s.
Proof.
  unfold textOf, or_. intros ->. simpl. case_bool_decide; by subst.
Qed.

Lemma prop_step_text (acc el : object) (field : string) :
  field ∈ ["definition"; "query"; "mutation"] ->
  prop (mergeSchemasStep acc el) field
  = VStr (textOf acc field +:+ " " +:+ textOf el field).
Proof.
  intros Hf. rewrite prop_step.
  repeat (apply elem_of_cons in Hf as [->|Hf]; [reflexivity|]).
  by apply elem_of_nil in Hf.
Qed.

Lemma prop_fold_text (field : string) (schemas : list object) (acc : object) (s0 : string) :
  field ∈ ["definition"; "query"; "mutation"] ->
  prop acc field = VStr s0 ->
  prop (fold_left mergeSchemasStep schemas acc) field
  = VStr (s0 +:+ foldr (fun el s => " " +:+ textOf el field +:+ s) "" schemas).
Proof.
  intros Hf. revert acc s0.
  induction schemas as [|el schemas IH]; intros acc s0 Hacc; simpl.
  - by rewrite string_app_nil_r.
  - rewrite (IH _ (textOf acc field +:+ " " +:+ textOf el field)).
    + rewrite (textOf_VStr _ _ _ Hacc). by rewrite !string_app_assoc.
    + by apply prop_step_text.
Qed.

Lemma foldr_spaced (texts : list string) :
  texts <> [] ->
  foldr (fun t s => " " +:+ t +:+ s) "" texts = " " +:+ join " " texts.
Proof.
  induction texts as [|t texts IH]; [done|]. intros _.
  destruct texts as [|t' texts].
  - simpl. by rewrite string_app_nil_r.
  - specialize (IH ltac:(done)). cbn [foldr] in *. rewrite IH.
    reflexivity.
Qed.

Lemma mergeSchemas_text (schemas : list object) (field : string) :
  schemas <> [] ->
  field ∈ ["definition"; "query"; "mutation"] ->
  prop (mergeSchemas schemas) field
  = VStr (" " +:+ join " " ((fun el => textOf el field) <$> schemas)).
Proof.
  intros Hne Hf. unfold mergeSchemas.
  destruct schemas as [|el schemas]; [done|]. cbn [fold_left].
  rewrite (prop_fold_text field schemas _ (" " +:+ textOf el field) Hf).
  - rewrite <- foldr_spaced by done. cbn [fmap list_fmap foldr].
    rewrite string_app_assoc. do 3 f_equal.
    clear. induction schemas as [|el' schemas IH]; [done|].
    cbn [fmap list_fmap foldr]. by rewrite IH.
  - by rewrite prop_step_text.
Qed.

Lemma prop_step_resolver (acc el : object) :
  prop (mergeSchemasStep acc el) "resolver"
  = if is_undefined (prop el "resolver") then prop acc "resolver"
    else mergeDeep (prop acc "resolver") (prop el "resolver").
Proof. by rewrite prop_step. Qed.

(** Reading an entry below the object a merge starts from. *)
Lemma propOf_base (v : value) (k : string) :
  prop (match v with VObj o => o | _ => [] end) k = propOf v k.
Proof. by destruct v. Qed.

Lemma resolverEntry_step_defines (acc el rb tb : object) (type name : string) :
  prop el "resolver" = VObj rb -> NoDup (keys rb) ->
  prop rb type = VObj tb -> NoDup (keys tb) ->
  resolverEntry (mergeSchemasStep acc el) type name
  = if is_undefined (prop tb name) then resolverEntry acc type name
    else mergeDeep (resolverEntry acc type name) (prop tb name).
Proof.
  intros Hr Hrb Ht Htb. unfold resolverEntry.
  rewrite prop_step_resolver, Hr. cbn [is_undefined].
  rewrite mergeDeep_object. cbn [propOf].
  rewrite (prop_merge _ _ type Hrb), Ht. cbn [is_undefined].
  rewrite mergeDeep_object. cbn [propOf].
  rewrite (prop_merge _ _ name Htb).
  by rewrite !propOf_base.
Qed.

Lemma resolverEntry_step_silent (acc el : object) (type name : string) :
  definesNoEntry el type name ->
  resolverEntry (mergeSchemasStep acc el) type name = resolverEntry acc type name.
Proof.
  unfold definesNoEntry, resolverEntry. intros H.
  rewrite prop_step_resolver.
  destruct (prop el "resolver") as [| | | | | |r]; try done. cbn [is_undefined].
  destruct H as [Hr H].
  rewrite mergeDeep_object. cbn [propOf]. rewrite (prop_merge _ _ type Hr).
  destruct (prop r type) as [| | | | | |t]; try done; cbn [is_undefined].
  - by rewrite propOf_base.
  - destruct H as [Ht H].
    rewrite mergeDeep_object. cbn [propOf]. rewrite (prop_merge _ _ name Ht), H.
    cbn [is_undefined]. by rewrite !propOf_base.
Qed.

Lemma resolverEntry_fold_silent (post : list object) (acc : object) (type name : string) :
  Forall (fun el => definesNoEntry el type name) post ->
  resolverEntry (fold_left mergeSchemasStep post acc) type name
  = resolverEntry acc type name.
Proof.
  intros H. revert acc. induction H as [|el post Hel _ IH]; intros acc; simpl; [done|].
  by rewrite IH, resolverEntry_step_silent.
Qed.

(** What a fragment with a [resolver] that is neither [undefined] nor a
    plain object does to the merged resolver map, and a [resolver[type]]
    of that kind to the merged type. *)
Lemma resolver_replaced (acc el : object) :
  prop el "resolver" <> VUndef -> isPlainObject (prop el "resolver") = false ->
  prop (mergeSchemasStep acc el) "resolver" = prop el "resolver".
Proof.
  intros Hu Hp. rewrite prop_step_resolver, (mergeDeep_not_object _ _ Hp).
  by destruct (prop el "resolver").
Qed.

Lemma resolver_type_replaced (acc el r : object) (type : string) :
  prop el "resolver" = VObj r -> NoDup (keys r) ->
  prop r type <> VUndef -> isPlainObject (prop r type) = false ->
  propOf (prop (mergeSchemasStep acc el) "resolver") type = prop r type.
Proof.
  intros Hr Hk Hu Hp. rewrite prop_step_resolver, Hr. cbn [is_undefined].
  rewrite mergeDeep_object. cbn [propOf].
  rewrite (prop_merge _ _ type Hk), (mergeDeep_not_object _ _ Hp).
  by destruct (prop r type).
Qed.

(** C5 (amended). The merged [definition], [query] and [mutation] texts
    hold the texts of the fragments in fragment order, each one preceded by
    one space. For a resolver entry [resolver[type][name]], take the last
    fragment that defines it, the later fragments having no [resolver], or
    a plain object whose [resolver[type]] is missing or a plain object
    without [name]: its value is the merged entry when it is a function or
    a primitive (the values of the model that are not plain objects; under
    the name [constructor] lodash skips a function, which is left out);
    when it is a plain object it is merged, property by property, into what
    the earlier fragments gave. A fragment whose [resolver], or
    [resolver[type]], is neither [undefined] nor a plain object replaces
    the merged resolver map, or the merged type, by that value, and the
    entries below are lost. *)
Theorem mergeSchemas_texts_and_resolvers :
  (forall (schemas : list object) (field : string),
     schemas <> [] ->
     field ∈ ["definition"; "query"; "mutation"] ->
     prop (mergeSchemas schemas) field
     = VStr (" " +:+ join " " ((fun el => textOf el field) <$> schemas)))
  /\ (forall (pre post : list object) (el rb tb : object) (type name : string),
        prop el "resolver" = VObj rb -> NoDup (keys rb) ->
        prop rb type = VObj tb -> NoDup (keys tb) ->
        Forall (fun later => definesNoEntry later type name) post ->
        let merged := resolverEntry (mergeSchemas (pre ++ el :: post)) type name in
        let v := prop tb name in
        (v <> VUndef -> isPlainObject v = false -> name <> "constructor" -> merged = v)
        /\ (isPlainObject v = true ->
            merged = mergeDeep (resolverEntry (mergeSchemas pre) type name) v))
  /\ (forall (pre : list object) (el : object),
        prop el "resolver" <> VUndef -> isPlainObject (prop el "resolver") = false ->
        prop (mergeSchemas (pre ++ [el])) "resolver" = prop el "resolver")
  /\ (forall (pre : list object) (el r : object) (type : string),
        prop el "resolver" = VObj r -> NoDup (keys r) ->
        prop r type <> VUndef -> isPlainObject (prop r type) = false ->
        type <> "constructor" ->
        propOf (prop (mergeSchemas (pre ++ [el])) "resolver") type = prop r type).
Proof.
  split; [exact mergeSchemas_text|]. split; [|split].
  - intros pre post el rb tb type name Hr Hrb Ht Htb Hpost merged v.
    assert (merged = if is_undefined v then resolverEntry (mergeSchemas pre) type name
                     else mergeDeep (resolverEntry (mergeSchemas pre) type name) v) as ->.
    { subst merged. unfold mergeSchemas. rewrite fold_left_app. simpl.
      rewrite (resolverEntry_fold_silent _ _ _ _ Hpost).
      apply (resolverEntry_step_defines _ _ _ _ _ _ Hr Hrb Ht Htb). }
    split.
    + intros Hv Hp _. rewrite (mergeDeep_not_object _ _ Hp). by destruct v.
    + intros Hp. by destruct v.
  - intros pre el Hu Hp. unfold mergeSchemas. rewrite fold_left_app. simpl.
    by apply resolver_replaced.
  - intros pre el r type Hr Hk Hu Hp _. unfold mergeSchemas. rewrite fold_left_app. simpl.
    by apply resolver_type_replaced.
Qed.

Lemma convertType_component_witness :
  convertType Sample.siapi Sample.toSingular Sample.camelCase
    Sample.cover "Article" "cover" "mutation" "create"
  = Ok (VStr "[ComponentSharedMediaInput!]").
Proof.
  apply (convertType_component Sample.siapi Sample.toSingular Sample.camelCase
           Sample.cover "Article" "cover" "mutation" "create" Sample.media);
    reflexivity.
Defined.

(** C8, as stated, fails: the empty attribute of a query is not rendered
    as a string scalar, and a component that is not registered makes
    [convertType] throw. *)
Lemma convertType_unrecognized_counterexample :
  (forall bang : string,
     convertType Sample.siapi Sample.toSingular Sample.camelCase
       [] "Article" "anything" "query" "" <> Ok (VStr ("String" +:+ bang)))
  /\ convertType Sample.siapi Sample.toSingular Sample.camelCase
       [] "Article" "anything" "query" "" = Ok (VStr "[Morph]")
  /\ exists e,
       convertType Sample.siapi Sample.toSingular Sample.camelCase
         [("type", VStr "component"); ("component", VStr "shared.missing")]
         "Article" "gallery" "query" "" = Throw e.
Proof.
  repeat split.
  - intros bang. vm_compute. discriminate.
  - eexists. vm_compute. reflexivity.
Qed.

Lemma convertType_unrecognized_witness :
  convertType Sample.siapi Sample.toSingular Sample.camelCase
    [("type", VStr "richtext"); ("required", VBool true)] "Article" "body" "query" ""
  = Ok (VStr "String!")
  /\ convertType Sample.siapi Sample.toSingular Sample.camelCase
       [] "Article" "anything" "mutation" "update" = Ok (VStr "[ID]").
Proof.
  split.
  - apply (convertType_unrecognized Sample.siapi Sample.toSingular Sample.camelCase
             [("type", VStr "richtext"); ("required", VBool true)]
             "Article" "body" "query" ""); reflexivity.
  - apply (convertType_unrecognized Sample.siapi Sample.toSingular Sample.camelCase
             [] "Article" "anything" "mutation" "update"); reflexivity.
Defined.

Lemma generateInputPayloadArguments_cases_witness :
  generateInputPayloadArguments Sample.toSingular Sample.toInputName
    Sample.homepage "homepage" "deleteHomepage" "delete"
  = VStr (LF +:+ "          type deleteHomepagePayload { homepage: Homepage }" +:+ LF
          +:+ "        ")
  /\ generateInputPayloadArguments Sample.toSingular Sample.toInputName
       Sample.article "articles" "updateArticle" "update"
     = VStr (LF +:+ "          input updateArticleInput  { where: InputID, data: editArticleInput }"
             +:+ LF +:+ "          type updateArticlePayload { article: Article }" +:+ LF
             +:+ "        ").
Proof.
  split.
  - apply (generateInputPayloadArguments_cases Sample.toSingular Sample.toInputName
             Sample.homepage "homepage" "deleteHomepage"). reflexivity.
  - apply (generateInputPayloadArguments_cases Sample.toSingular Sample.toInputName
             Sample.article "articles" "updateArticle"). vm_compute. discriminate.
Defined.

Lemma generateInputModel_degenerate_witness :
  generateInputModel Sample.siapi Sample.toSingular Sample.camelCase
    Sample.homepage "homepage" false
  = Ok (LF +:+ "      input HomepageInput {" +:+ LF
        +:+ "        _: String" +:+ LF
        +:+ "      }" +:+ LF
        +:+ LF
        +:+ "      input editHomepageInput {" +:+ LF
        +:+ "        _: String" +:+ LF
        +:+ "      }" +:+ LF
        +:+ "     ").
Proof.
  apply (generateInputModel_degenerate Sample.siapi Sample.toSingular Sample.camelCase
           Sample.homepage "homepage" false).
  right. intros attr Hin. simpl in Hin. apply list_elem_of_singleton in Hin. by subst.
Defined.

Lemma generateInputModel_allowIds_witness :
  generateInputModel Sample.siapi Sample.toSingular Sample.camelCase
    Sample.article "articles" true
  = Ok (LF +:+ "      input ArticleInput {" +:+ LF
        +:+ LF
        +:+ "        title: String!" +:+ LF
        +:+ "views: Int" +:+ LF
        +:+ "cover: [ComponentSharedMediaInput!]" +:+ LF
        +:+ "      }" +:+ LF
        +:+ LF
        +:+ "      input editArticleInput {" +:+ LF
        +:+ "        id: ID" +:+ LF
        +:+ "        title: String" +:+ LF
        +:+ "views: Int" +:+ LF
        +:+ "cover: [editComponentSharedMediaInput]" +:+ LF
        +:+ "      }" +:+ LF
        +:+ "    ").
Proof.
  apply (generateInputModel_allowIds Sample.siapi Sample.toSingular Sample.camelCase
           Sample.article "articles" "title"
           ["title: String!"; "views: Int"; "cover: [ComponentSharedMediaInput!]"]
           ["title: String"; "views: Int"; "cover: [editComponentSharedMediaInput]"]
           true).
  - simpl. apply list_elem_of_here.
  - reflexivity.
  - vm_compute. reflexivity.
  - vm_compute. reflexivity.
Defined.

(** C6, as stated, fails: a document that defines the object type [A]
    twice yields a union that lists [A] twice. *)
Lemma addPolymorphicUnionType_counterexample :
  exists u,
    addPolymorphicUnionType Sample.parse
      "type Query { a: A } type A { x: Int } type A { y: Int }" = Ok u
    /\ definition u = "union Morph = A | A"
    /\ ~ NoDup (morphTypes [ObjectTypeDefinition "Query"; ObjectTypeDefinition "A";
                            ObjectTypeDefinition "A"]).
Proof.
  eexists. split; [vm_compute; reflexivity|]. split; [reflexivity|].
  vm_compute. intros H. apply NoDup_cons in H as [H _]. apply H, list_elem_of_here.
Qed.

Lemma addPolymorphicUnionType_members_witness :
  addPolymorphicUnionType Sample.parse
    "type B { x: Int } input I { y: Int } type A { b: B }"
  = Ok {| definition := "union Morph = B | A";
          resolvers := [("Morph", [("__resolveType", resolveType)])] |}
  /\ addPolymorphicUnionType Sample.parse "type Query { a: Int } enum E { X }"
     = Ok {| definition := ""; resolvers := [] |}.
Proof.
  split.
  - apply (proj1 (proj2 (addPolymorphicUnionType_members Sample.parse
             "type B { x: Int } input I { y: Int } type A { b: B }"
             [ObjectTypeDefinition "B"; OtherDefinition "InputObjectTypeDefinition";
              ObjectTypeDefinition "A"] eq_refl))).
  - apply (proj1 (proj2 (addPolymorphicUnionType_members Sample.parse
             "type Query { a: Int } enum E { X }"
             [ObjectTypeDefinition "Query"; OtherDefinition "EnumTypeDefinition"] eq_refl))).
Defined.



(** A later fragment whose [resolver] is [null] leaves no resolver map. *)
Example mergeSchemas_resolver_null :
  prop (mergeSchemas [Sample.fragmentA; Sample.fragmentB; [("resolver", VNull)]]) "resolver"
  = VNull.
Proof. reflexivity. Qed.

(** C5, as stated, fails: when two fragments give the entry [Query.a] as
    plain objects, the merged entry is not the later fragment's value but
    holds the properties of both; and the merged text starts with a space
    instead of being the texts joined by one. *)
Lemma mergeSchemas_counterexample :
  let merged := mergeSchemas [Sample.fragmentA; Sample.fragmentB] in
  resolverEntry merged "Query" "a" <> resolverEntry Sample.fragmentB "Query" "a"
  /\ resolverEntry merged "Query" "a"
     = VObj [("description", VStr "one A");
             ("resolver", VStr "application::a.a.findOne");
             ("policies", VStr "isAuthenticated")]
  /\ prop merged "definition" = VStr " type A { x: Int } type B { y: Int }"
  /\ prop merged "definition" <> VStr "type A { x: Int } type B { y: Int }".
Proof. vm_compute. repeat split; discriminate. Qed.

Lemma mergeSchemas_texts_and_resolvers_witness :
  prop (mergeSchemas [Sample.fragmentA; Sample.fragmentB; Sample.fragmentC]) "definition"
  = VStr " type A { x: Int } type B { y: Int } type C { z: Int }"
  /\ resolverEntry (mergeSchemas [Sample.fragmentA; Sample.fragmentB; Sample.fragmentC])
       "Query" "x" = VFun "function fnB() {}".
Proof.
  split.
  - apply (proj1 mergeSchemas_texts_and_resolvers
             [Sample.fragmentA; Sample.fragmentB; Sample.fragmentC] "definition").
    + discriminate.
    + apply list_elem_of_here.
  - refine (proj1 (proj1 (proj2 mergeSchemas_texts_and_resolvers)
                     [Sample.fragmentA] [Sample.fragmentC] Sample.fragmentB
                     [("Query", VObj [("x", VFun "function fnB() {}");
                                      ("a", VObj [("policies", VStr "isAuthenticated")])])]
                     [("x", VFun "function fnB() {}");
                      ("a", VObj [("policies", VStr "isAuthenticated")])]
                     "Query" "x" _ _ _ _ _) _ _ _).
    + reflexivity.
    + distinct_keys.
    + reflexivity.
    + distinct_keys.
    + constructor; [|constructor]. split; [distinct_keys|exact I].
    + vm_compute. discriminate.
    + reflexivity.
    + discriminate.
Defined.

(** * Further properties of the type mapper *)

Section TypeMapperMore.

Variable siapi : Siapi.
Variables toSingular camelCase : string -> string.

Lemma typeless_not_scalar attribute :
  truthy (prop attribute "type") = false -> isScalarAttribute attribute = false.
Proof. unfold isScalarAttribute. by intros ->. Qed.

Lemma typeless_is_str attribute lit :
  truthy (prop attribute "type") = false -> lit <> "" ->
  is_str (prop attribute "type") lit = false.
Proof.
  intros Ht Hl. destruct (prop attribute "type"); try done.
  simpl in *. apply negb_false_iff, bool_decide_eq_true in Ht. subst.
  by apply bool_decide_eq_false_2.
Qed.

(** X1. A mutation writes a relation by identifier: on an attribute
    without a [type], [convertType] in a mutation returns "ID" or "[ID]"
    and nothing else, whatever the target model is. When the target is
    known to [siapi.db.getModel], the list form is chosen exactly when
    [collection] is not empty (even if [model] is set too), and outside a
    mutation the same choice wraps the target's [globalId]. *)
Theorem convertType_relation_by_identifier attribute modelName attributeName rootType action :
  truthy (prop attribute "type") = false ->
  (forall v,
     convertType siapi toSingular camelCase attribute modelName attributeName
       "mutation" action = Ok v ->
     v = VStr "ID" \/ v = VStr "[ID]")
  /\ (forall m,
        let ref := or_ (prop attribute "model") (prop attribute "collection") in
        truthy ref = true -> is_str ref "*" = false ->
        db_getModel siapi ref (prop attribute "plugin") = Some m ->
        convertType siapi toSingular camelCase attribute modelName attributeName
          "mutation" action
        = Ok (VStr (if isEmpty (prop attribute "collection") then "ID" else "[ID]"))
        /\ (rootType <> "mutation" ->
            convertType siapi toSingular camelCase attribute modelName attributeName
              rootType action
            = Ok (VStr (if isEmpty (prop attribute "collection") then globalId m
                        else "[" +:+ globalId m +:+ "]")))).
Proof.
  intros Ht. unfold convertType.
  rewrite (typeless_not_scalar _ Ht), !(typeless_is_str _ _ Ht) by done.
  split.
  - intros v.
    destruct (truthy (or_ _ _) && negb (is_str (or_ _ _) "*")).
    + destruct (db_getModel siapi _ _); simpl; [|done].
      destruct (isEmpty _); simpl; intros [= <-]; auto.
    + simpl. destruct (truthy (prop attribute "model")); intros [= <-]; auto.
  - intros m. cbv zeta. intros Hr Hs Hm. rewrite Hr, Hs, Hm. simpl. split.
    + by destruct (isEmpty _).
    + intros Hn. rewrite (bool_decide_eq_false_2 _ Hn). by destruct (isEmpty _).
Qed.

(** X2. An update never demands a field: in a mutation update, two
    attributes that differ in [required] only convert alike, unless they
    are dynamic zones. *)
Theorem convertType_update_ignores_required attribute attribute' modelName attributeName :
  (forall k, k <> "required" -> prop attribute' k = prop attribute k) ->
  is_str (prop attribute "type") "dynamiczone" = false ->
  convertType siapi toSingular camelCase attribute' modelName attributeName
    "mutation" "update"
  = convertType siapi toSingular camelCase attribute modelName attributeName
      "mutation" "update".
Proof.
  intros Hsame Hdz.
  unfold convertType, isScalarAttribute, scalarType, convertEnumType.
  rewrite !(Hsame "type"), !(Hsame "enumName"), !(Hsame "default"), !(Hsame "repeatable"),
    !(Hsame "component"), !(Hsame "model"), !(Hsame "collection"), !(Hsame "plugin")
    by done.
  rewrite Hdz. simpl.
  destruct (truthy (prop attribute "type") && _) eqn:Es.
  - by rewrite !andb_false_r.
  - done.
Qed.

(** X3. A dynamic zone is a list in every context: [convertType] does not
    throw on it, the action plays no part, and a required zone keeps its
    outer "!" in a mutation update too, around elements of type
    [<unionName>Input!]. *)
Theorem convertType_dynamiczone_list attribute modelName attributeName rootType action :
  is_str (prop attribute "type") "dynamiczone" = true ->
  let unionName := modelName +:+ upperFirst (camelCase attributeName) +:+ "DynamicZone" in
  convertType siapi toSingular camelCase attribute modelName attributeName rootType action
  = convertType siapi toSingular camelCase attribute modelName attributeName rootType ""
  /\ (rootType <> "mutation" ->
      convertType siapi toSingular camelCase attribute modelName attributeName rootType action
      = Ok (VStr ("[" +:+ unionName +:+ "]"
                  +:+ (if truthy (prop attribute "required") then "!" else ""))))
  /\ convertType siapi toSingular camelCase attribute modelName attributeName
       "mutation" "update"
     = Ok (VStr ("[" +:+ (unionName +:+ "Input!") +:+ "]"
                 +:+ (if truthy (prop attribute "required") then "!" else ""))).
Proof.
  intros Hdz unionName. unfold convertType, isScalarAttribute.
  destruct (prop attribute "type") as [| | | |t| |] eqn:Et; try done.
  simpl in Hdz. apply bool_decide_eq_true in Hdz. subst t. simpl.
  repeat split.
  intros Hn. by rewrite (bool_decide_eq_false_2 _ Hn).
Qed.

Lemma upper_ascii_idemp (c : ascii) : upper_ascii (upper_ascii c) = upper_ascii c.
Proof. by destruct c as [[] [] [] [] [] [] [] []]. Qed.

Lemma toUpperCase_idemp (s : string) : toUpperCase (toUpperCase s) = toUpperCase s.
Proof.
  induction s as [|c s IH]; [done|]. simpl. by rewrite upper_ascii_idemp, IH.
Qed.

Lemma toUpperCase_app (s1 s2 : string) :
  toUpperCase (s1 +:+ s2) = toUpperCase s1 +:+ toUpperCase s2.
Proof.
  induction s1 as [|c s1 IH]; [done|].
  change (String (upper_ascii c) (toUpperCase (s1 +:+ s2))
          = String (upper_ascii c) (toUpperCase s1 +:+ toUpperCase s2)).
  by rewrite IH.
Qed.

(** X4. The name derived for an enumeration without [enumName] is in
    upper case, so it does not tell apart names that differ in case; and it
    does not tell where the model name ends: the field [x_f] of the model
    [m] and the field [f] of the model [m_x] get the same enumeration
    name. *)
Theorem convertEnumType_derived_name definition (m x f m' f' : string) :
  truthy (prop definition "enumName") = false ->
  (exists s, convertEnumType definition m f = VStr s /\ toUpperCase s = s)
  /\ (toUpperCase m = toUpperCase m' -> toUpperCase f = toUpperCase f' ->
      convertEnumType definition m f = convertEnumType definition m' f')
  /\ convertEnumType definition (m +:+ "_" +:+ x) f
     = convertEnumType definition m (x +:+ "_" +:+ f).
Proof.
  intros He. unfold convertEnumType. rewrite He. repeat split.
  - eexists. split; [done|].
    rewrite !toUpperCase_app, !toUpperCase_idemp. done.
  - by intros -> ->.
  - rewrite !toUpperCase_app. f_equal. by rewrite !string_app_assoc.
Qed.

End TypeMapperMore.

Lemma convertType_relation_by_identifier_witness :
  convertType Sample.siapi Sample.toSingular Sample.camelCase
    Sample.related "Article" "related" "mutation" "create" = Ok (VStr "[ID]")
  /\ convertType Sample.siapi Sample.toSingular Sample.camelCase
       Sample.related "Article" "related" "query" "create" = Ok (VStr "[Article]").
Proof.
  destruct (convertType_relation_by_identifier Sample.siapi Sample.toSingular
              Sample.camelCase Sample.related "Article" "related" "query" "create")
    as [_ H]; [reflexivity|].
  destruct (H Sample.article) as [H1 H2]; [reflexivity..|].
  split; [exact H1|apply H2; discriminate].
Defined.

Lemma convertType_update_ignores_required_witness :
  convertType Sample.siapi Sample.toSingular Sample.camelCase
    [("type", VStr "integer"); ("required", VBool true)] "Article" "views" "mutation" "update"
  = convertType Sample.siapi Sample.toSingular Sample.camelCase
      [("type", VStr "integer")] "Article" "views" "mutation" "update".
Proof.
  apply (convertType_update_ignores_required Sample.siapi Sample.toSingular Sample.camelCase
           [("type", VStr "integer")] [("type", VStr "integer"); ("required", VBool true)]).
  - intros k Hk. simpl. by rewrite (bool_decide_eq_false_2 ("required" = k)).
  - reflexivity.
Defined.

Lemma convertType_dynamiczone_list_witness :
  convertType Sample.siapi Sample.toSingular Sample.camelCase
    [("type", VStr "dynamiczone"); ("required", VBool true)] "Article" "body"
    "mutation" "update"
  = Ok (VStr "[ArticleBodyDynamicZoneInput!]!").
Proof.
  apply (convertType_dynamiczone_list Sample.siapi Sample.toSingular Sample.camelCase
           [("type", VStr "dynamiczone"); ("required", VBool true)] "Article" "body"
           "mutation" "update").
  reflexivity.
Defined.

Lemma convertEnumType_derived_name_witness :
  convertEnumType [] "article_draft" "status" = convertEnumType [] "article" "draft_status"
  /\ convertEnumType [] "Article" "status" = convertEnumType [] "article" "STATUS".
Proof.
  split.
  - apply (convertEnumType_derived_name [] "article" "draft" "status" "" ""). reflexivity.
  - apply (convertEnumType_derived_name [] "Article" "" "status" "article" "STATUS");
      reflexivity.
Defined.

(** * Further properties of the generators *)

Lemma mapR_ext {A B : Type} (f g : A -> result B) (l : list A) :
  (forall x, x ∈ l -> f x = g x) -> mapR f l = mapR g l.
Proof.
  induction l as [|a l IH]; intros H; simpl; [done|].
  rewrite (H a) by apply list_elem_of_here.
  rewrite IH; [done|]. intros x Hx. apply H. by apply list_elem_of_further.
Qed.

Lemma mapR_Ok_iff {A B : Type} (f : A -> result B) (l : list A) :
  (exists l', mapR f l = Ok l') <-> Forall (fun x => exists y, f x = Ok y) l.
Proof.
  induction l as [|a l IH]; simpl.
  - split; [constructor|by eexists].
  - split.
    + intros [l' H]. destruct (f a) as [b|] eqn:Ea; [|done]. simpl in H.
      destruct (mapR f l) as [bs|] eqn:El; [|done].
      constructor; [by eexists|]. apply IH. by eexists.
    + intros H. apply List.Forall_cons_iff in H as [[b Hb] Hl].
      apply IH in Hl as [bs Hbs]. rewrite Hb. simpl. rewrite Hbs. by eexists.
Qed.

Lemma filter_fst {A : Type} (P : string -> bool) (l : list (string * A)) :
  (List.filter (fun kv => P kv.1) l).*1 = List.filter P l.*1.
Proof.
  induction l as [|[k a] l IH]; [done|]. csimpl.
  destruct (P k); csimpl; by rewrite IH.
Qed.

Lemma filter_filter_same {A : Type} (P : A -> bool) (l : list A) :
  List.filter P (List.filter P l) = List.filter P l.
Proof.
  induction l as [|a l IH]; simpl; [done|].
  destruct (P a) eqn:E; simpl; [rewrite E; by f_equal|done].
Qed.

Lemma forallb_negb_filter {A : Type} (P : A -> bool) (l : list A) :
  forallb (fun x => negb (P x)) l = match List.filter P l with [] => true | _ => false end.
Proof.
  induction l as [|a l IH]; simpl; [done|]. by destruct (P a).
Qed.

Lemma attributeOf_filter (P : string -> bool) (attrs : list (string * object)) (n : string) :
  P n = true ->
  attributeOf (List.filter (fun kv => P kv.1) attrs) n = attributeOf attrs n.
Proof.
  intros Hn. induction attrs as [|[k a] attrs IH]; simpl; [done|].
  destruct (P k) eqn:Ek; simpl.
  - by rewrite IH.
  - rewrite bool_decide_eq_false_2; [done|]. intros ->. congruence.
Qed.

Lemma elem_of_filter_true {A : Type} (P : A -> bool) (l : list A) (x : A) :
  x ∈ List.filter P l -> P x = true.
Proof.
  intros H. apply list_elem_of_In, filter_In in H. tauto.
Qed.

Section GeneratorsMore.

Variable siapi : Siapi.
Variables toSingular camelCase : string -> string.

Lemma enabledOnly_enabled (model : Model) :
  isTypeAttributeEnabled siapi (enabledOnly siapi model) = isTypeAttributeEnabled siapi model.
Proof. reflexivity. Qed.

Lemma inputField_enabledOnly (model : Model) (action n : string) :
  isTypeAttributeEnabled siapi model n = true ->
  inputField siapi toSingular camelCase (enabledOnly siapi model) action n
  = inputField siapi toSingular camelCase model action n.
Proof.
  intros Hn. unfold inputField, enabledOnly. simpl.
  by rewrite (attributeOf_filter (isTypeAttributeEnabled siapi model) _ _ Hn).
Qed.

(** X5. An attribute that is switched off is invisible to
    [generateInputModel]: the result, an exception included, is that of the
    model without its disabled attributes, so a disabled attribute is never
    converted and cannot make the generation fail. *)
Theorem generateInputModel_hides_disabled (model : Model) (name : string) (allowIds : bool) :
  generateInputModel siapi toSingular camelCase (enabledOnly siapi model) name allowIds
  = generateInputModel siapi toSingular camelCase model name allowIds.
Proof.
  unfold generateInputModel. rewrite enabledOnly_enabled.
  change (attributes (enabledOnly siapi model))
    with (List.filter (fun kv => isTypeAttributeEnabled siapi model kv.1) (attributes model)).
  rewrite filter_fst, filter_filter_same, !forallb_negb_filter, filter_filter_same.
  rewrite <- (filter_fst (isTypeAttributeEnabled siapi model) (attributes model)).
  destruct (List.filter _ (attributes model)) as [|kv attrs'] eqn:Ef.
  - simpl. by rewrite !orb_true_r.
  - rewrite <- Ef.
    rewrite (bool_decide_eq_false_2 (List.filter _ (attributes model) = [])) by by rewrite Ef.
    assert (attributes model <> []) as Hne by (intros E; by rewrite E in Ef).
    rewrite (bool_decide_eq_false_2 _ Hne). rewrite Ef at 1 2. cbn [fmap list_fmap orb].
    rewrite filter_fst.
    rewrite (mapR_ext (inputField siapi toSingular camelCase (enabledOnly siapi model) "")
               (inputField siapi toSingular camelCase model ""));
      [|intros x Hx; apply inputField_enabledOnly; by apply elem_of_filter_true in Hx].
    rewrite (mapR_ext (inputField siapi toSingular camelCase (enabledOnly siapi model) "update")
               (inputField siapi toSingular camelCase model "update"));
      [|intros x Hx; apply inputField_enabledOnly; by apply elem_of_filter_true in Hx].
    done.
Qed.

Lemma convertType_Ok_any_context attribute modelName attributeName
    (rootType action rootType' action' : string) :
  (exists t, convertType siapi toSingular camelCase attribute modelName attributeName
               rootType action = Ok t) ->
  exists t, convertType siapi toSingular camelCase attribute modelName attributeName
              rootType' action' = Ok t.
Proof.
  unfold convertType.
  destruct (isScalarAttribute attribute); [by eauto|].
  destruct (is_str (prop attribute "type") "component").
  { destruct (components siapi !! _); simpl; [by eauto|]. by intros [? ?]. }
  destruct (is_str (prop attribute "type") "dynamiczone"); [by eauto|].
  destruct (truthy _ && _); [|by repeat case_match; eauto].
  destruct (db_getModel siapi _ _); simpl; [|by intros [? ?]].
  intros _. repeat case_match; eauto.
Qed.

Lemma inputField_Ok_iff (model : Model) (action n : string) :
  (exists line, inputField siapi toSingular camelCase model action n = Ok line)
  <-> exists t, convertType siapi toSingular camelCase
                  (attributeOf (attributes model) n) (globalId model) n "mutation" ""
                = Ok t.
Proof.
  unfold inputField. split.
  - intros [line H].
    destruct (convertType _ _ _ _ _ _ "mutation" action) as [t|] eqn:E; [|done].
    apply (convertType_Ok_any_context _ _ _ "mutation" action). by eexists.
  - intros H. apply (convertType_Ok_any_context _ _ _ _ _ "mutation" action) in H as [t Ht].
    rewrite Ht. by eexists.
Qed.

(** X6. [generateInputModel] returns a text exactly when every enabled
    attribute converts: it throws if, and only if, an enabled attribute
    names a component missing from [siapi.components] or a relation target
    unknown to [siapi.db.getModel]; [allowIds] and the disabled attributes
    play no part. *)
Theorem generateInputModel_succeeds_iff (model : Model) (name : string) (allowIds : bool) :
  (exists text, generateInputModel siapi toSingular camelCase model name allowIds = Ok text)
  <-> forall n, n ∈ (attributes model).*1 ->
        isTypeAttributeEnabled siapi model n = true ->
        exists t, convertType siapi toSingular camelCase
                    (attributeOf (attributes model) n) (globalId model) n "mutation" ""
                  = Ok t.
Proof.
  unfold generateInputModel. rewrite forallb_negb_filter.
  set (enabled := List.filter (isTypeAttributeEnabled siapi model) (attributes model).*1).
  assert ((forall n, n ∈ (attributes model).*1 ->
             isTypeAttributeEnabled siapi model n = true ->
             exists t, convertType siapi toSingular camelCase
                         (attributeOf (attributes model) n) (globalId model) n "mutation" ""
                       = Ok t)
          <-> Forall (fun n => exists line,
                        inputField siapi toSingular camelCase model "" n = Ok line) enabled
              /\ Forall (fun n => exists line,
                           inputField siapi toSingular camelCase model "update" n = Ok line)
                        enabled) as ->.
  { rewrite !List.Forall_forall. subst enabled. split.
    - intros H. split; intros n Hn; apply filter_In in Hn as [Hin Hen];
        apply inputField_Ok_iff, H; [by apply list_elem_of_In|done|by apply list_elem_of_In|done].
    - intros [H _] n Hin Hen. apply (inputField_Ok_iff model ""), H.
      apply filter_In. split; [by apply list_elem_of_In|done]. }
  rewrite <- !mapR_Ok_iff.
  destruct (bool_decide (attributes model = []) || _) eqn:Ed.
  - split; [|by eexists]. intros _.
    assert (enabled = []) as ->; [|split; by eexists].
    apply orb_true_iff in Ed as [Ed|Ed].
    + apply bool_decide_eq_true in Ed. subst enabled. by rewrite Ed.
    + by destruct enabled.
  - split.
    + intros [text H].
      destruct (mapR (inputField siapi toSingular camelCase model "") enabled)
        as [cs|]; simpl in H; [|done].
      destruct (mapR (inputField siapi toSingular camelCase model "update") enabled)
        as [es|]; simpl in H; [|done].
      split; by eexists.
    + intros [[cs ->] [es ->]]. by eexists.
Qed.

End GeneratorsMore.

(** X7. The [Morph] resolver answers with a truthy discriminator or with
    [null], never with another falsy value: [kind] when it is truthy, else
    [__contentType] when that is truthy, else [null]; it throws exactly on
    [null] and [undefined]. *)
Theorem resolveType_discriminator (obj : value) :
  ((exists e, resolveType obj = Throw e) <-> obj = VUndef \/ obj = VNull)
  /\ (forall v, resolveType obj = Ok v ->
        (truthy v = true \/ v = VNull)
        /\ (truthy (propOf obj "kind") = true -> v = propOf obj "kind")
        /\ (truthy (propOf obj "kind") = false ->
            truthy (propOf obj "__contentType") = true -> v = propOf obj "__contentType")
        /\ (truthy (propOf obj "kind") = false ->
            truthy (propOf obj "__contentType") = false -> v = VNull)).
Proof.
  split.
  - split.
    + intros [e H]. destruct obj; simpl in H; try discriminate; auto.
    + intros [->| ->]; by eexists.
  - intros v H.
    assert (v = or_ (or_ (propOf obj "kind") (propOf obj "__contentType")) VNull) as ->.
    { destruct obj; simpl in H; try discriminate; by injection H. }
    unfold or_.
    destruct (truthy (propOf obj "kind")) eqn:Ek.
    + rewrite Ek. repeat split; auto; discriminate.
    + destruct (truthy (propOf obj "__contentType")) eqn:Ec; rewrite ?Ec;
        repeat split; auto; discriminate.
Qed.

(** * The SDL renderer *)

Lemma applyMetadatas_shape (definition : string) (metadatas : value) :
  metadatas <> VNull ->
  applyMetadatas definition metadatas
  = Ok (descriptionBlock (propOf metadatas "description") +:+ definition
        +:+ deprecation (propOf metadatas "deprecated")).
Proof.
  intros Hn. unfold applyMetadatas, descriptionBlock, deprecation.
  destruct metadatas; try done;
    destruct (truthy (propOf _ "description")), (truthy (propOf _ "deprecated"));
    by rewrite ?string_app_assoc, ?string_app_nil_r.
Qed.

Lemma beforeParen_suffix (name rest : string) :
  beforeParen (name +:+ "(" +:+ rest) = beforeParen name.
Proof.
  induction name as [|c name IH]; [done|].
  change (beforeParen (String c (name +:+ "(" +:+ rest)) = beforeParen (String c name)).
  simpl. by rewrite IH.
Qed.

Lemma fieldToSDL_shape (configurations : object) (model : Model) (key : string) (v : value) :
  let attributeName := trim (beforeParen key) in
  let c := prop configurations attributeName in
  let attribute := attributeOf (attributes model) attributeName in
  fieldToSDL configurations model (key, v)
  = Ok (descriptionBlock
          (if isString c then c
           else or_ (propOf c "description") (prop attribute "description"))
        +:+ (key +:+ ": " +:+ toString v)
        +:+ deprecation (or_ (propOf c "deprecated") (prop attribute "deprecated"))).
Proof.
  intros attributeName c attribute. unfold fieldToSDL.
  cbn [fst snd]. fold attributeName. fold c. fold attribute.
  by rewrite applyMetadatas_shape.
Qed.

(** X8. A field written with arguments, [name(args)], is decorated like
    the field [name]: the description block and the deprecation are looked
    up under what comes before the first "(", and only the line itself
    keeps the arguments. *)
Theorem fieldToSDL_argument_suffix (configurations : object) (model : Model)
    (name rest : string) (v : value) :
  exists block directive,
    fieldToSDL configurations model (name, v)
    = Ok (block +:+ (name +:+ ": " +:+ toString v) +:+ directive)
    /\ fieldToSDL configurations model (name +:+ "(" +:+ rest, v)
       = Ok (block +:+ ((name +:+ "(" +:+ rest) +:+ ": " +:+ toString v) +:+ directive).
Proof.
  do 2 eexists. rewrite !fieldToSDL_shape. cbv zeta.
  rewrite beforeParen_suffix. split; reflexivity.
Qed.

(** X9. A configuration entry that is a string is the description of the
    field in a type block, where it shuts out the description of the model
    attribute even when it is the empty string; in a query or mutation block
    the same entry is ignored. *)
Theorem string_configuration (configurations : object) (model : Model)
    (key t d : string) (v : value) :
  prop configurations (trim (beforeParen key)) = VStr d ->
  fieldToSDL configurations model (key, v)
  = Ok (descriptionBlock (VStr d) +:+ (key +:+ ": " +:+ toString v)
        +:+ deprecation (prop (attributeOf (attributes model) (trim (beforeParen key)))
                              "deprecated"))
  /\ operationFieldToSDL configurations (key, VStr t) = Ok (key +:+ ": " +:+ t).
Proof.
  intros Hc. split.
  - rewrite fieldToSDL_shape. cbv zeta. by rewrite Hc.
  - unfold operationFieldToSDL. cbn [fst snd]. rewrite Hc.
    rewrite applyMetadatas_shape by done. simpl.
    by rewrite string_app_nil_r.
Qed.

(** X10. An override that gives a description and a deprecation reason
    decides both, whatever the model says; without an entry in the
    configuration the description and the reason of the model attribute
    are used. *)
Theorem fieldToSDL_override_precedence (configurations : object) (model : Model)
    (key : string) (v : value) :
  let attributeName := trim (beforeParen key) in
  let c := prop configurations attributeName in
  let attribute := attributeOf (attributes model) attributeName in
  (truthy (propOf c "description") = true -> truthy (propOf c "deprecated") = true ->
   forall model',
     fieldToSDL configurations model' (key, v)
     = Ok (TQ +:+ LF +:+ toString (propOf c "description") +:+ LF +:+ TQ +:+ LF
           +:+ key +:+ ": " +:+ toString v
           +:+ " @deprecated(reason: " +:+ DQ +:+ toString (propOf c "deprecated")
           +:+ DQ +:+ ")"))
  /\ (c = VUndef ->
      fieldToSDL configurations model (key, v)
      = Ok (descriptionBlock (prop attribute "description")
            +:+ (key +:+ ": " +:+ toString v)
            +:+ deprecation (prop attribute "deprecated"))).
Proof.
  intros attributeName c attribute. split.
  - intros Hd Hr model'. rewrite fieldToSDL_shape. cbv zeta.
    fold attributeName. fold c.
    assert (isString c = false) as -> by (by destruct c).
    unfold or_, descriptionBlock, deprecation. rewrite Hd, Hr, Hd, Hr.
    by rewrite !string_app_assoc.
  - intros Hc. rewrite fieldToSDL_shape. cbv zeta.
    fold attributeName. fold c. fold attribute. by rewrite Hc.
Qed.

(** X11. In a query or mutation block a descriptor without arguments
    ([args] missing or empty) renders like the plain string of its type: no
    parentheses are written. *)
Theorem operationToSDL_no_arguments (configurations : object) (key t : string)
    (descriptor : object) :
  trim (beforeParen key) = key ->
  prop descriptor "type" = VStr t ->
  isEmpty (prop descriptor "args") = true ->
  operationFieldToSDL configurations (key, VObj descriptor)
  = operationFieldToSDL configurations (key, VStr t).
Proof.
  intros Hk Ht Ha. unfold operationFieldToSDL, argumentsToSDL. cbn [fst snd propOf].
  rewrite Hk, Ht.
  destruct (is_undefined (prop descriptor "args")); simpl; [done|]. by rewrite Ha.
Qed.

Lemma fieldToSDL_Ok (configurations : object) (model : Model) (entry : string * value) :
  exists line, fieldToSDL configurations model entry = Ok line.
Proof. destruct entry as [key v]. rewrite fieldToSDL_shape. by eexists. Qed.

Lemma applyMetadatas_Ok_iff (definition : string) (metadatas : value) :
  (exists line, applyMetadatas definition metadatas = Ok line) <-> is_null metadatas = false.
Proof.
  destruct metadatas; simpl; split; try done; try (intros _; by eexists).
  by intros [? ?].
Qed.

Lemma operationFieldToSDL_Ok_iff (configurations : object) (entry : string * value) :
  (exists line, operationFieldToSDL configurations entry = Ok line)
  <-> operationEntryOk configurations entry = true.
Proof.
  destruct entry as [key v]. unfold operationFieldToSDL, operationEntryOk. cbn [fst snd].
  destruct v; rewrite ?applyMetadatas_Ok_iff, ?negb_true_iff; try done;
    split; try done; by intros [? ?].
Qed.

(** X12. A type block is always rendered: [fieldsToSDL] does not throw. A
    query or mutation block is rendered exactly when no field value is
    [null] or [undefined] and no configuration entry that is looked up is
    [null]; otherwise [operationToSDL] throws. *)
Theorem toSDL_exceptions (fields configurations : object) (model : Model) :
  (exists text, fieldsToSDL fields configurations model = Ok text)
  /\ ((exists text, operationToSDL fields configurations = Ok text)
      <-> forallb (operationEntryOk configurations) fields = true).
Proof.
  split.
  - unfold fieldsToSDL.
    destruct (proj2 (mapR_Ok_iff (fieldToSDL configurations model) fields)) as [lines ->].
    + apply List.Forall_forall. intros entry _. apply fieldToSDL_Ok.
    + by eexists.
  - unfold operationToSDL. rewrite forallb_forall, <- List.Forall_forall.
    split.
    + intros [text H].
      destruct (mapR (operationFieldToSDL configurations) fields) as [lines|] eqn:E;
        [|done].
      assert (Forall (fun x => exists y, operationFieldToSDL configurations x = Ok y) fields)
        as HF by (apply mapR_Ok_iff; by eexists).
      eapply List.Forall_impl; [|exact HF]. intros entry. apply operationFieldToSDL_Ok_iff.
    + intros HF.
      destruct (proj2 (mapR_Ok_iff (operationFieldToSDL configurations) fields))
        as [lines ->]; [|by eexists].
      eapply List.Forall_impl; [|exact HF]. intros entry. apply operationFieldToSDL_Ok_iff.
Qed.

Lemma mapR_app {A B : Type} (f : A -> result B) (l1 l2 : list A) (r1 r2 : list B) :
  mapR f l1 = Ok r1 -> mapR f l2 = Ok r2 -> mapR f (l1 ++ l2) = Ok (r1 ++ r2).
Proof.
  revert r1. induction l1 as [|a l1 IH]; intros r1 H1 H2; simpl in *.
  - by injection H1 as <-.
  - destruct (f a) as [b|]; [|done]. simpl in *.
    destruct (mapR f l1) as [bs|]; [|done]. simpl in *.
    injection H1 as <-. by rewrite (IH bs eq_refl H2).
Qed.

Lemma mapR_nil_inv {A B : Type} (f : A -> result B) (l : list A) :
  mapR f l = Ok [] -> l = [].
Proof.
  destruct l as [|a l]; [done|]. simpl.
  destruct (f a); [|done]. simpl. by destruct (mapR f l).
Qed.

Lemma join_app (sep : string) (l1 l2 : list string) :
  l1 <> [] -> l2 <> [] ->
  join sep (l1 ++ l2) = join sep l1 +:+ sep +:+ join sep l2.
Proof.
  intros H1 H2. induction l1 as [|x l1 IH]; [done|].
  destruct l1 as [|y l1].
  - destruct l2; done.
  - specialize (IH ltac:(done)).
    change (join sep ((x :: y :: l1) ++ l2)) with (x +:+ sep +:+ join sep ((y :: l1) ++ l2)).
    change (join sep (x :: y :: l1)) with (x +:+ sep +:+ join sep (y :: l1)).
    by rewrite IH, !string_app_assoc.
Qed.

(** X13. Rendering keeps the order of the fields and composes: the text of
    two non-empty field maps one after the other is the text of the first,
    a line feed, and the text of the second, in a type block as in a query
    or mutation block. *)
Theorem toSDL_app (fields1 fields2 configurations : object) (model : Model)
    (type text1 text2 : string) :
  fields1 <> [] -> fields2 <> [] ->
  toSDL fields1 configurations model type = Ok text1 ->
  toSDL fields2 configurations model type = Ok text2 ->
  toSDL (fields1 ++ fields2) configurations model type = Ok (text1 +:+ LF +:+ text2).
Proof.
  intros Hn1 Hn2. unfold toSDL, operationToSDL, fieldsToSDL.
  destruct (existsb _ _).
  - destruct (mapR _ fields1) as [l1|] eqn:E1; [|done].
    destruct (mapR _ fields2) as [l2|] eqn:E2; [|done]. simpl.
    intros [= <-] [= <-]. rewrite (mapR_app _ _ _ _ _ E1 E2). simpl.
    rewrite join_app; [done| |]; intros ->; by apply mapR_nil_inv in E1 || apply mapR_nil_inv in E2.
  - destruct (mapR _ fields1) as [l1|] eqn:E1; [|done].
    destruct (mapR _ fields2) as [l2|] eqn:E2; [|done]. simpl.
    intros [= <-] [= <-]. rewrite (mapR_app _ _ _ _ _ E1 E2). simpl.
    rewrite join_app; [done| |]; intros ->; by apply mapR_nil_inv in E1 || apply mapR_nil_inv in E2.
Qed.

(** * Tagging and merging the fragments of the sources *)

Lemma setProp_setProp (o : object) (k : string) (v1 v2 : value) :
  setProp (setProp o k v1) k v2 = setProp o k v2.
Proof.
  induction o as [|[k0 v0] o IH]; simpl.
  - by rewrite bool_decide_eq_true_2.
  - destruct (bool_decide (k0 = k)) eqn:E0; simpl; rewrite E0; [done|]. by rewrite IH.
Qed.

Lemma keys_setProp_NoDup (o : object) (k : string) (v : value) :
  NoDup (keys o) -> NoDup (keys (setProp o k v)).
Proof.
  unfold keys. induction o as [|[k0 v0] o IH]; simpl.
  - intros _. apply NoDup_singleton.
  - intros [Hk0 Ho]%NoDup_cons. case_bool_decide; csimpl.
    + by apply NoDup_cons.
    + apply NoDup_cons. split; [|by apply IH].
      intros Hin. apply Hk0. clear -Hin H.
      induction o as [|[k1 v1] o IH]; simpl in *.
      * apply list_elem_of_singleton in Hin. congruence.
      * destruct (bool_decide (k1 = k)); csimpl in *.
        -- done.
        -- apply elem_of_cons in Hin as [->|Hin]; [apply list_elem_of_here|].
           apply list_elem_of_further. by apply IH.
Qed.

Section Sources.

Variables api plugin : value.

Lemma annotated_annotated (api' plugin' : value) (v : value) :
  annotated api' plugin' (annotated api plugin v) = annotated api' plugin' v.
Proof. destruct v; simpl; try done. by rewrite setProp_setProp. Qed.

(** X14. Tagging a fragment again replaces the tag: after two runs of
    [attachMetadataToResolvers] every resolver entry is what one run with
    the second identity makes of it; the first identity leaves no trace. *)
Theorem attachMetadataToResolvers_twice (api' plugin' : value) (schema : object)
    (type name : string) :
  resolverEntry
    (attachMetadataToResolvers (attachMetadataToResolvers schema api plugin) api' plugin')
    type name
  = resolverEntry (attachMetadataToResolvers schema api' plugin') type name.
Proof. by rewrite !resolverEntry_attach, annotated_annotated. Qed.

End Sources.

Section Loading.

Variables apis plugins extensions : list (string * object).
Variables (key : string) (schema r t : object) (type name : string).

Hypothesis schema_resolver : prop schema "resolver" = VObj r.
Hypothesis resolver_keys : NoDup (keys r).
Hypothesis resolver_type : prop r type = VObj t.
Hypothesis type_keys : NoDup (keys t).

(** The entry of the last API, merged into what all the other sources
    gave. *)
Lemma baseSchema_last_api :
  resolverEntry (baseSchema (apis ++ [(key, schema)]) plugins extensions) type name
  = let v := annotated (VStr key) VUndef (prop t name) in
    if is_undefined v
    then resolverEntry (baseSchema apis plugins extensions) type name
    else mergeDeep (resolverEntry (baseSchema apis plugins extensions) type name) v.
Proof.
  unfold baseSchema, mergeSchemas.
  rewrite fmap_app, !app_assoc, fold_left_app. cbn [fmap list_fmap fold_left fst snd].
  rewrite <- !app_assoc.
  rewrite (resolverEntry_step_defines _ _
             (fold_left (attachToType (VStr key) VUndef) (keys r) r)
             (fold_left (attachToEntry (VStr key) VUndef) (keys t) t)).
  - by rewrite prop_attachToEntries.
  - by apply resolver_attach.
  - by rewrite keys_attachToTypes.
  - by rewrite prop_attachToTypes, resolver_type.
  - by rewrite keys_attachToEntries.
Qed.


(** X16. The tags of two sources mix: when the last API gives a resolver
    entry as a plain object, the merged entry is tagged with the API's key,
    but keeps the [plugin] tag of the entry merged from the earlier sources
    (a plugin that gave the same entry stays named in [_metadatas]). *)
Theorem baseSchema_metadata_mix (entry : object) :
  prop t name = VObj entry -> NoDup (keys entry) ->
  let before := resolverEntry (baseSchema apis plugins extensions) type name in
  let after :=
    resolverEntry (baseSchema (apis ++ [(key, schema)]) plugins extensions) type name in
  propOf (propOf after "_metadatas") "api" = VStr key
  /\ propOf (propOf after "_metadatas") "plugin"
     = propOf (propOf before "_metadatas") "plugin".
Proof.
  intros He Hk before after. subst after. rewrite baseSchema_last_api. fold before.
  rewrite He. cbn [annotated is_undefined].
  rewrite mergeDeep_object. cbn [propOf].
  rewrite (prop_merge _ _ "_metadatas") by by apply keys_setProp_NoDup.
  rewrite prop_setProp, bool_decide_eq_true_2 by done. cbn [is_undefined].
  rewrite mergeDeep_object. cbn [propOf].
  assert (NoDup (keys [("api", VStr key); ("plugin", VUndef)])) as Hlit by distinct_keys.
  rewrite !(prop_merge _ _ _ Hlit). simpl.
  by rewrite !propOf_base.
Qed.

End Loading.

Lemma generateInputModel_succeeds_iff_witness :
  exists text,
    generateInputModel Sample.siapi Sample.toSingular Sample.camelCase
      Sample.article "articles" true = Ok text.
Proof.
  apply (generateInputModel_succeeds_iff Sample.siapi Sample.toSingular Sample.camelCase
           Sample.article "articles" true).
  intros n Hn Hen. simpl in Hn.
  repeat (apply elem_of_cons in Hn as [->|Hn]; [by eexists || discriminate Hen|]).
  by apply elem_of_nil in Hn.
Defined.

Lemma resolveType_discriminator_witness :
  resolveType (VObj [("kind", VStr ""); ("__contentType", VNum 0)]) = Ok VNull
  /\ (truthy (propOf (VObj [("kind", VStr ""); ("__contentType", VNum 0)]) "kind") = false ->
      truthy (propOf (VObj [("kind", VStr ""); ("__contentType", VNum 0)]) "__contentType")
      = false ->
      VNull = VNull).
Proof.
  split; [reflexivity|].
  apply (proj2 (resolveType_discriminator
                  (VObj [("kind", VStr ""); ("__contentType", VNum 0)])) VNull).
  reflexivity.
Defined.

Lemma string_configuration_witness :
  fieldToSDL Sample.overrides Sample.article ("title", VStr "String!")
  = Ok (TQ +:+ LF +:+ "The headline" +:+ LF +:+ TQ +:+ LF +:+ "title: String!")
  /\ operationFieldToSDL Sample.overrides ("article(id: ID!)", VStr "Article")
     = Ok "article(id: ID!): Article".
Proof.
  split.
  - apply (string_configuration Sample.overrides Sample.article "title" "" "The headline"
             (VStr "String!")). reflexivity.
  - apply (string_configuration Sample.overrides Sample.article "article(id: ID!)" "Article"
             "One article" (VStr "Article")). reflexivity.
Defined.

Lemma fieldToSDL_override_precedence_witness :
  fieldToSDL Sample.overrides Sample.article ("views", VStr "Int")
  = Ok (TQ +:+ LF +:+ "Page views" +:+ LF +:+ TQ +:+ LF +:+ "views: Int"
        +:+ " @deprecated(reason: " +:+ DQ +:+ "Use hits" +:+ DQ +:+ ")").
Proof.
  apply (proj1 (fieldToSDL_override_precedence Sample.overrides Sample.article "views"
                  (VStr "Int"))); reflexivity.
Defined.

Lemma operationToSDL_no_arguments_witness :
  operationFieldToSDL [] ("articles", VObj [("type", VStr "[Article]")])
  = operationFieldToSDL [] ("articles", VStr "[Article]").
Proof.
  apply (operationToSDL_no_arguments [] "articles" "[Article]" [("type", VStr "[Article]")]);
    reflexivity.
Defined.

Lemma toSDL_app_witness :
  toSDL Sample.queryFields [] Sample.article "query"
  = Ok ("article(id: ID!): Article" +:+ LF
        +:+ "articles(limit: Int, start: Int): [Article]").
Proof.
  apply (toSDL_app [("article(id: ID!)", VStr "Article")]
           [("articles", VObj [("args", VObj [("limit", VStr "Int"); ("start", VStr "Int")]);
                               ("type", VStr "[Article]")])]
           [] Sample.article "query").
  - discriminate.
  - discriminate.
  - reflexivity.
  - reflexivity.
Defined.


Lemma baseSchema_metadata_mix_witness :
  propOf (propOf (resolverEntry
                    (baseSchema [("blog", Sample.fragmentA)] [("users", Sample.fragmentP)] [])
                    "Query" "a") "_metadatas") "api" = VStr "blog"
  /\ propOf (propOf (resolverEntry
                       (baseSchema [("blog", Sample.fragmentA)] [("users", Sample.fragmentP)] [])
                       "Query" "a") "_metadatas") "plugin" = VStr "users".
Proof.
  apply (baseSchema_metadata_mix [] [("users", Sample.fragmentP)] [] "blog"
           Sample.fragmentA
           [("Query",
             VObj [("x", VFun "function fnA() {}");
                   ("a", VObj [("description", VStr "one A");
                               ("resolver", VStr "application::a.a.findOne")])])]
           [("x", VFun "function fnA() {}");
            ("a", VObj [("description", VStr "one A");
                        ("resolver", VStr "application::a.a.findOne")])]
           "Query" "a"
           (ltac:(reflexivity)) (ltac:(distinct_keys)) (ltac:(reflexivity))
           (ltac:(distinct_keys))
           [("description", VStr "one A"); ("resolver", VStr "application::a.a.findOne")]).
  - reflexivity.
  - distinct_keys.
Defined.
